(** * Conference-room booking backend: model and verified properties

    A shallow embedding of [src/app.py] and [src/service/*.py].

    - The module-level dictionaries of [app.py] ([all_floors], [all_orgs],
      [all_bookings], [organization_booking_hours]) form the [store];
      every route handler is a function from a store to a store and a
      [reply].
    - Python dictionaries whose iteration order is observable are
      insertion-ordered association lists ([odict]); the two whose order is
      never observed (an organization's own fields, the quota tracker) are
      [gmap]s.
    - [datetime.now()] and [uuid4()] are inputs of the handlers that call
      them.
    - [datetime.strptime] is a library function: a request carries its
      outcome, a [datetime] or the exception raised.
    - Request bodies carry exactly the fields the handler reads, with the
      JSON types the handler expects.
    - [str.lower] is modelled on ASCII strings ([lower], [is_ascii]); the
      properties whose point is the letter case of a name or an email are
      stated for ASCII strings.
    - Handlers are modelled one call at a time (the sequential behaviour). *)

From stdpp Require Import gmap strings list fin_maps.
From Stdlib Require Import ZArith Lia Ascii String.

Open Scope Z_scope.

(** ** Exceptions *)

Inductive exn :=
| KeyError (key : string)
| KeyErrorInt (key : Z)
| NameError (name : string)
| TypeError
| AttributeError
| ValueError
| OverflowError.

Inductive res (A : Type) :=
| Ret (a : A)
| Raise (e : exn).
Arguments Ret {A} a.
Arguments Raise {A} e.

(** ** Python [str.lower], on ASCII letters *)

Definition lower_ascii (c : ascii) : ascii :=
  let n := nat_of_ascii c in
  if (65 <=? n)%nat && (n <=? 90)%nat then ascii_of_nat (n + 32) else c.

Fixpoint lower (s : string) : string :=
  match s with
  | EmptyString => EmptyString
  | String c s' => String (lower_ascii c) (lower s')
  end.

(** The strings on which [lower] is [str.lower]: those made of ASCII
    characters only.  On a string with other cased letters [str.lower]
    lowers those too, and [lower] does not. *)
Fixpoint is_ascii (s : string) : bool :=
  match s with
  | EmptyString => true
  | String c s' => (nat_of_ascii c <? 128)%nat && is_ascii s'
  end.

(** ** [datetime] and [timedelta]

    A [datetime] is its seven fields.  Comparison and subtraction go
    through the position on the proleptic Gregorian time line, in
    microseconds, as in CPython's [datetime] module ([toordinal] is
    [_ymd2ord]).  A [timedelta] is a number of microseconds. *)

Record datetime := mkdt {
  year : Z; month : Z; day : Z;
  hour : Z; minute : Z; second : Z; microsecond : Z
}.

Definition is_leap (y : Z) : bool :=
  (y mod 4 =? 0) && (negb (y mod 100 =? 0) || (y mod 400 =? 0)).

Definition days_before_year (y : Z) : Z :=
  let p := y - 1 in p * 365 + p / 4 - p / 100 + p / 400.

Definition days_before_month_table : list Z :=
  [0; 0; 31; 59; 90; 120; 151; 181; 212; 243; 273; 304; 334].

Definition days_in_month_table : list Z :=
  [0; 31; 28; 31; 30; 31; 30; 31; 31; 30; 31; 30; 31].

Definition days_before_month (y m : Z) : Z :=
  nth (Z.to_nat m) days_before_month_table 0
  + (if (2 <? m) && is_leap y then 1 else 0).

Definition days_in_month (y m : Z) : Z :=
  if (m =? 2) && is_leap y then 29 else nth (Z.to_nat m) days_in_month_table 0.

Definition toordinal (d : datetime) : Z :=
  days_before_year (year d) + days_before_month (year d) (month d) + day d.

Definition us_per_second : Z := 1000000.
Definition us_per_day : Z := 86400 * us_per_second.

Definition to_micro (d : datetime) : Z :=
  (toordinal d * 86400 + hour d * 3600 + minute d * 60 + second d)
  * us_per_second + microsecond d.

(** The values [datetime] can hold: years 1 to 9999. *)
Definition valid_datetime (d : datetime) : bool :=
  (1 <=? year d) && (year d <=? 9999)
  && (1 <=? month d) && (month d <=? 12)
  && (1 <=? day d) && (day d <=? days_in_month (year d) (month d))
  && (0 <=? hour d) && (hour d <? 24)
  && (0 <=? minute d) && (minute d <? 60)
  && (0 <=? second d) && (second d <? 60)
  && (0 <=? microsecond d) && (microsecond d <? us_per_second).

Definition max_ordinal : Z := 3652059.

(** [a < b] on datetimes. *)
Definition dt_ltb (a b : datetime) : bool := to_micro a <? to_micro b.

(** [a - b] on datetimes: a timedelta. *)
Definition dt_diff (a b : datetime) : Z := to_micro a - to_micro b.

(** [timedelta(minutes=m)]. *)
Definition timedelta_minutes (m : Z) : Z := m * 60 * us_per_second.

(** [d - delta]: the resulting instant, or [OverflowError] when its day
    number leaves [1 .. max_ordinal]. *)
Definition dt_sub_delta (d : datetime) (delta : Z) : res Z :=
  let t := to_micro d - delta in
  let days := t / us_per_day in
  if (0 <? days) && (days <=? max_ordinal) then Ret t else Raise OverflowError.

(** [delta.total_seconds() / 3600].  The quotient is taken on integers:
    where the handler computes it both datetimes come from [strptime] with a
    format that has no fraction of a second and have passed the whole-hour
    check, so the division is exact (see [booking_duration_exact]). *)
Definition hours_of_delta (delta : Z) : Z := delta / (3600 * us_per_second).

(** ** Insertion-ordered dictionaries *)

Definition odict (K V : Type) : Type := list (K * V).

Section odict.
Context {K V : Type} `{EqDecision K}.

Fixpoint od_get (k : K) (d : odict K V) : option V :=
  match d with
  | [] => None
  | (k', v) :: d' => if decide (k = k') then Some v else od_get k d'
  end.

(** [k in d] *)
Definition od_mem (k : K) (d : odict K V) : bool :=
  match od_get k d with Some _ => true | None => false end.

(** [d[k] = v]: an existing key keeps its position, a new one goes last. *)
Fixpoint od_set (k : K) (v : V) (d : odict K V) : odict K V :=
  match d with
  | [] => [(k, v)]
  | (k', v') :: d' =>
      if decide (k = k') then (k, v) :: d' else (k', v') :: od_set k v d'
  end.

(** [del d[k]] *)
Fixpoint od_del (k : K) (d : odict K V) : odict K V :=
  match d with
  | [] => []
  | (k', v') :: d' =>
      if decide (k = k') then d' else (k', v') :: od_del k d'
  end.

Definition od_keys (d : odict K V) : list K := map fst d.
Definition od_values (d : odict K V) : list V := map snd d.
End odict.

(** ** Entities *)

Record room := mkroom {
  room_number : Z;
  capacity : Z;
  room_floor_number : Z;
  (** the key [list_rooms_with_availability] adds to the stored room *)
  currently_available : option bool
}.

Record floor := mkfloor {
  floor_number : Z;
  floor_capacity : Z;
  rooms : odict Z room
}.

Record user := mkuser {
  name : string;
  organization : string;
  emp_id : string;
  email : string;
  role : string;
  permissions : string
}.

(** The values an organization dictionary holds under its keys. *)
Inductive pyval :=
| VStr (s : string)
| VUsers (d : odict string user)
| VUserList (l : list user).

Record booker := mkbooker {
  booker_name : string;
  booker_email : string
}.

Record booking := mkbooking {
  booking_id : string;
  booking_floor_number : Z;
  booking_room_number : Z;
  booking_organization : string;
  booked_by : booker;
  start_time : datetime;
  end_time : datetime
}.

Record store := mkstore {
  all_bookings : odict string booking;
  all_floors : odict Z floor;
  all_orgs : odict string (gmap string pyval);
  organization_booking_hours : gmap string Z
}.

Definition empty_store : store := mkstore [] [] [] ∅.

(** ** service/floor.py *)

Definition define_floor (floor_number : Z) : floor :=
  mkfloor floor_number 100 [].

(** The loop visits the keys of [floor["rooms"]] and reads each room back
    from the dictionary: it visits the stored rooms, each once. *)
Definition calculate_available_capacity (fl : floor) : Z :=
  let used_capacity :=
    fold_left (fun used r => used + capacity r) (od_values (rooms fl)) 0 in
  floor_capacity fl - used_capacity.

(** ** service/room.py *)

Definition define_room (room_number capacity floor_number : Z) : room :=
  mkroom room_number capacity floor_number None.

(** ** service/organization.py *)

(** The dictionary literal of [define_organization] has no comma between
    ["limit"] and ["users"]: Python joins the two adjacent literals into the
    single key ["limitusers"]. *)
Definition define_organization (org_name org_email : string)
  : gmap string pyval :=
  {[ "org_name" := VStr org_name;
     "org_email" := VStr org_email;
     "limit" +:+ "users" := VUsers [] ]}.

Definition reset_monthly_booking_hours (current_date : datetime)
    (hours : gmap string Z) : gmap string Z :=
  if day current_date =? 1 then ∅ else hours.

(** ** service/user.py *)

Definition define_user (name organization emp_id email role permissions : string)
  : user :=
  mkuser name organization emp_id email role permissions.

(** [all(user[field] != x for user in user_list)].  Over a list of users the
    generator reads the field of each; over a dictionary (or a string) it
    iterates strings, and subscripting a string with a string raises
    [TypeError] at the first element. *)
Definition all_differ (field : user -> string) (x : string) (user_list : pyval)
  : res bool :=
  match user_list with
  | VUserList l => Ret (forallb (fun u => negb (String.eqb (field u) x)) l)
  | VUsers [] => Ret true
  | VUsers (_ :: _) => Raise TypeError
  | VStr EmptyString => Ret true
  | VStr (String _ _) => Raise TypeError
  end.

Definition is_emp_id_unique (new_emp_id : string) (user_list : pyval) : res bool :=
  all_differ emp_id new_emp_id user_list.

Definition is_email_unique (new_email : string) (user_list : pyval) : res bool :=
  all_differ email new_email user_list.

(** ** service/booking.py *)

Definition define_booking (uuid : string) (floor_number room_number : Z)
    (organization : string) (booked_by : booker) (start_time end_time : datetime)
  : booking :=
  mkbooking uuid floor_number room_number organization booked_by
            start_time end_time.

(** The condition of the loop body of [is_room_available]:
    [start_time < booking["end_time"] and end_time > booking["start_time"]]. *)
Definition clashes (start_t end_t : datetime) (b : booking) : bool :=
  dt_ltb start_t (end_time b) && dt_ltb (start_time b) end_t.

(** The [for] loop of [is_room_available]. *)
Fixpoint none_clashes (start_t end_t : datetime) (bs : list booking) : bool :=
  match bs with
  | [] => true
  | b :: bs' =>
      if clashes start_t end_t b then false else none_clashes start_t end_t bs'
  end.

Definition same_room (floor_number room_number : Z) (b : booking) : bool :=
  (booking_floor_number b =? floor_number)
  && (booking_room_number b =? room_number).

Definition is_room_available (all_bookings : odict string booking)
    (floor_number room_number : Z) (start_t end_t : datetime) : bool :=
  let floor_bookings :=
    List.filter (same_room floor_number room_number) (od_values all_bookings) in
  none_clashes start_t end_t floor_bookings.

Definition list_bookings_for_organization (all_bookings : odict string booking)
    (organization_name : string) : list booking :=
  fold_left
    (fun acc kv =>
       if String.eqb (lower (booking_organization (snd kv))) organization_name
       then acc ++ [snd kv] else acc)
    all_bookings [].

(** [get_booking_by_organization_and_id] reads a global [all_bookings] that
    its module never defines or imports: the call raises [NameError]. *)
Definition get_booking_by_organization_and_id
    (organization_name booking_id : string) : res (option booking) :=
  Raise (NameError "all_bookings").

(** [available_rooms_of_floor] and [list_all_available_rooms] read a global
    [all_floors] that service/booking.py never defines or imports: each
    raises [NameError] at its first use of it, before it looks at its
    arguments. *)
Definition available_rooms_of_floor (all_bookings : odict string booking)
    (floor_number : Z) (start_t end_t : datetime) : res (list Z) :=
  Raise (NameError "all_floors").

Definition list_all_available_rooms (all_bookings : odict string booking)
    (start_t end_t : datetime) : res (list (Z * Z)) :=
  Raise (NameError "all_floors").

(** ** Replies of the route handlers

    One constructor per [return jsonify(...)] of [app.py]; [status] gives
    the HTTP status code that goes with it. *)

Inductive reply :=
(* add_floor *)
| FloorAdded
(* get_floors, get_floor *)
| FloorsData (floors : odict Z floor) (count : nat)
| FloorData (fl : floor)
(* add_room *)
| FloorNotBeenAdded (floor_number : Z)
| RoomAlreadyExists (room_number : Z)
| FloorHasCapacity (floor_number available_capacity : Z)
| RoomAdded
(* get_rooms, search_rooms *)
| RoomsData (rooms : list (Z * room))
| AvailableRooms (rooms : list (Z * Z * Z))
(* add_org, get_orgs, get_org *)
| OrganizationExists
| OrganizationAdded
| OrganizationsData (orgs : list (gmap string pyval)) (count : nat)
| OrganizationData (org : gmap string pyval)
(* add_user, get_users, get_user *)
| OrganizationNotAdded (organization : string)
| EmailExists
| EmpIdExists
| UserAdded
| UsersData (users : list user) (count : nat)
| UserData (u : user)
(* add_boooking *)
| HourlySlotsOnly
| FloorNotAdded (floor_number : Z)
| RoomNotAdded (room_number : Z)
| NoSuchUser
| MonthlyLimitReached
| AlreadyBooked
| Booked (new_booking : booking)
(* get_bookings, get_booking *)
| BookingsData (bookings : list booking) (count : nat)
| BookingData (b : option booking)
(* del_booking *)
| BookingCancelled
| CancelTooLate
| BookingNotFound
(* [except Exception as e]: the message is [str(e)] *)
| Caught (e : exn)
(* an exception raised outside every [try]: the framework answers *)
| Uncaught (e : exn).

Definition status (r : reply) : Z :=
  match r with
  | FloorAdded | RoomAdded | OrganizationAdded | UserAdded => 201
  | FloorsData _ _ | FloorData _ | RoomsData _ | AvailableRooms _
  | OrganizationsData _ _ | OrganizationData _ | UsersData _ _ | UserData _
  | Booked _ | BookingsData _ _ | BookingData _ | BookingCancelled => 200
  | BookingNotFound => 404
  | Uncaught _ => 500
  | _ => 400
  end.

(** ** The handler monad: the store is threaded, an exception keeps the
    store as it was when it was raised. *)

Definition handler (A : Type) : Type := store -> store * res A.

Definition ret {A} (a : A) : handler A := fun st => (st, Ret a).
Definition raise {A} (e : exn) : handler A := fun st => (st, Raise e).
Definition lift {A} (r : res A) : handler A := fun st => (st, r).
Definition bind {A B} (m : handler A) (k : A -> handler B) : handler B :=
  fun st =>
    match m st with
    | (st', Ret a) => k a st'
    | (st', Raise e) => (st', Raise e)
    end.
Definition read : handler store := fun st => (st, Ret st).
Definition put (st : store) : handler unit := fun _ => (st, Ret tt).

Notation "'do' x <- m ; k" := (bind m (fun x => k))
  (at level 10, x name, m at level 100, k at level 200).

(** [try: ... except Exception as e: return jsonify(... str(e)), 400] *)
Definition try_except (body : handler reply) (st : store) : store * reply :=
  match body st with
  | (st', Ret r) => (st', r)
  | (st', Raise e) => (st', Caught e)
  end.

(** A handler body with no [try] around the raising statement. *)
Definition no_try (body : handler reply) (st : store) : store * reply :=
  match body st with
  | (st', Ret r) => (st', r)
  | (st', Raise e) => (st', Uncaught e)
  end.

(** [d[k]] *)
Definition subscript {V} (k : string) (d : odict string V) : res V :=
  match od_get k d with Some v => Ret v | None => Raise (KeyError k) end.

Definition subscript_int {V} (k : Z) (d : odict Z V) : res V :=
  match od_get k d with Some v => Ret v | None => Raise (KeyErrorInt k) end.

(** [org[k]] on an organization dictionary *)
Definition org_subscript (k : string) (org : gmap string pyval) : res pyval :=
  match org !! k with Some v => Ret v | None => Raise (KeyError k) end.

Definition with_bookings (b : odict string booking) (st : store) : store :=
  mkstore b (all_floors st) (all_orgs st) (organization_booking_hours st).
Definition with_floors (f : odict Z floor) (st : store) : store :=
  mkstore (all_bookings st) f (all_orgs st) (organization_booking_hours st).
Definition with_orgs (o : odict string (gmap string pyval)) (st : store) : store :=
  mkstore (all_bookings st) (all_floors st) o (organization_booking_hours st).
Definition with_hours (h : gmap string Z) (st : store) : store :=
  mkstore (all_bookings st) (all_floors st) (all_orgs st) h.

Definition with_rooms (r : odict Z room) (fl : floor) : floor :=
  mkfloor (floor_number fl) (floor_capacity fl) r.

(** ** app.py: floors and rooms *)

Definition add_floor : store -> store * reply :=
  try_except (
    do st <- read;
    let floor_number :=
      if (List.length (all_floors st) =? 0)%nat then 0
      else List.last (od_keys (all_floors st)) 0 + 1 in
    let new_floor := define_floor floor_number in
    do _ <- put (with_floors (od_set floor_number new_floor (all_floors st)) st);
    ret FloorAdded).

Definition get_floors : store -> store * reply :=
  try_except (
    do st <- read;
    ret (FloorsData (all_floors st) (List.length (all_floors st)))).

Definition get_floor (floor_number : Z) : store -> store * reply :=
  try_except (
    do st <- read;
    do fl <- lift (subscript_int floor_number (all_floors st));
    ret (FloorData fl)).

Record room_request := mkroom_request {
  rr_floor_number : Z;
  rr_room_number : Z;
  rr_capacity : Z
}.

Definition add_room (data : room_request) : store -> store * reply :=
  try_except (
    do st <- read;
    let floor_number := rr_floor_number data in
    if negb (od_mem floor_number (all_floors st))
    then ret (FloorNotBeenAdded floor_number)
    else
      let room_number := rr_room_number data in
      do curr_floor <- lift (subscript_int floor_number (all_floors st));
      let available_capacity := calculate_available_capacity curr_floor in
      if od_mem room_number (rooms curr_floor)
      then ret (RoomAlreadyExists room_number)
      else if available_capacity <? rr_capacity data
      then ret (FloorHasCapacity floor_number available_capacity)
      else
        let new_room :=
          define_room (rr_room_number data) (rr_capacity data)
                      (rr_floor_number data) in
        let curr_floor' :=
          with_rooms (od_set room_number new_room (rooms curr_floor)) curr_floor in
        do _ <- put (with_floors (od_set floor_number curr_floor' (all_floors st)) st);
        ret RoomAdded).

(** [list_rooms_with_availability] of service/room.py, called by [get_rooms]
    without a time slot: both ends default to the current time.  The
    function writes ["currently_available"] into every stored room, so it
    returns the floors as it leaves them together with its result list. *)
Definition with_available (a : bool) (r : room) : room :=
  mkroom (room_number r) (capacity r) (room_floor_number r) (Some a).

Definition list_rooms_with_availability (all_floors : odict Z floor)
    (all_bookings : odict string booking) (now : datetime)
  : odict Z floor * list (Z * room) :=
  let start_t := now in
  let end_t := start_t in
  let all_floors' :=
    map (fun '(floor_number, floor_info) =>
           (floor_number,
            with_rooms
              (map (fun '(room_number, room_info) =>
                      let availability :=
                        is_room_available all_bookings floor_number room_number
                                          start_t end_t in
                      (room_number, with_available availability room_info))
                   (rooms floor_info))
              floor_info))
        all_floors in
  (all_floors',
   flat_map (fun '(floor_number, floor_info) =>
               map (fun room_info => (floor_number, room_info))
                   (od_values (rooms floor_info)))
            all_floors').

Definition get_rooms (now : datetime) : store -> store * reply :=
  try_except (
    do st <- read;
    let '(floors', rooms) :=
      list_rooms_with_availability (all_floors st) (all_bookings st) now in
    do _ <- put (with_floors floors' st);
    ret (RoomsData rooms)).

(** [search_rooms].  The [for] statement binds [floor_number] again, over
    the query parameter of the same name: inside the loop the name denotes
    the floor being visited, an [int], which is never [None]. *)
Definition search_rooms (floor_number capacity_arg : option Z)
    (start_time_str end_time_str : res datetime) : store -> store * reply :=
  try_except (
    do start_t <- lift start_time_str;
    do end_t <- lift end_time_str;
    do st <- read;
    let available_rooms :=
      flat_map (fun '(floor_number, floor_info) =>
        flat_map (fun '(room_number, room_info) =>
          if (floor_number =? floor_number) || false then
            if match capacity_arg with
               | None => true
               | Some c => c <=? capacity room_info
               end
            then
              let availability :=
                is_room_available (all_bookings st) floor_number room_number
                                  start_t end_t in
              if availability
              then [(floor_number, room_number, capacity room_info)]
              else []
            else []
          else [])
          (rooms floor_info))
        (all_floors st) in
    ret (AvailableRooms available_rooms)).

(** ** app.py: organizations and users *)

Definition add_org (org_name org_email : string) : store -> store * reply :=
  try_except (
    do st <- read;
    let org_name := lower org_name in
    if od_mem org_name (all_orgs st)
    then ret OrganizationExists
    else
      let new_org := define_organization org_name org_email in
      do _ <- put (with_orgs (od_set org_name new_org (all_orgs st)) st);
      ret OrganizationAdded).

Definition get_orgs : store -> store * reply :=
  try_except (
    do st <- read;
    ret (OrganizationsData (od_values (all_orgs st))
                           (List.length (all_orgs st)))).

(** [d.values()] and [d.keys()] exist on a dictionary only. *)
Definition values_of (v : pyval) : res (list user) :=
  match v with
  | VUsers d => Ret (od_values d)
  | _ => Raise AttributeError
  end.

Definition keys_of (v : pyval) : res (list string) :=
  match v with
  | VUsers d => Ret (od_keys d)
  | _ => Raise AttributeError
  end.

(** [get_org] replaces the stored ["users"] by the list of its values
    before the [try] starts. *)
Definition get_org (org_name : string) : store -> store * reply :=
  no_try (
    do st <- read;
    do org <- lift (subscript (lower org_name) (all_orgs st));
    do users <- lift (org_subscript "users" org);
    do vals <- lift (values_of users);
    let org' := <["users" := VUserList vals]> org in
    do _ <- put (with_orgs (od_set (lower org_name) org' (all_orgs st)) st);
    ret (OrganizationData org')).

Record user_request := mkuser_request {
  ur_name : string;
  ur_organization : string;
  ur_emp_id : string;
  ur_email : string;
  ur_role : string;
  ur_permissions : string
}.

(** [users[email] = new_user] *)
Definition users_store (k : string) (u : user) (users : pyval) : res pyval :=
  match users with
  | VUsers d => Ret (VUsers (od_set k u d))
  | _ => Raise TypeError
  end.

Definition add_user (data : user_request) : store -> store * reply :=
  try_except (
    do st <- read;
    let email := lower (ur_email data) in
    let emp_id := lower (ur_emp_id data) in
    let organization := ur_organization data in
    if negb (od_mem organization (all_orgs st))
    then ret (OrganizationNotAdded organization)
    else
      do org <- lift (subscript organization (all_orgs st));
      do users <- lift (org_subscript "users" org);
      do email_unique <- lift (is_email_unique email users);
      if negb email_unique then ret EmailExists
      else
        do emp_id_unique <- lift (is_emp_id_unique emp_id users);
        if negb emp_id_unique then ret EmpIdExists
        else
          let new_user :=
            define_user (ur_name data) organization emp_id email
                        (ur_role data) (ur_permissions data) in
          do users' <- lift (users_store email new_user users);
          let org' := <["users" := users']> org in
          do _ <- put (with_orgs (od_set organization org' (all_orgs st)) st);
          ret UserAdded).

Definition get_users (org_name : string) : store -> store * reply :=
  try_except (
    do st <- read;
    do org <- lift (subscript org_name (all_orgs st));
    do users <- lift (org_subscript "users" org);
    do vals <- lift (values_of users);
    ret (UsersData vals (List.length vals))).

Definition get_user (org_name email : string) : store -> store * reply :=
  no_try (
    do st <- read;
    match od_get org_name (all_orgs st) with
    | None => raise TypeError
    | Some org =>
        do users <- lift (org_subscript "users" org);
        match users with
        | VUsers d =>
            do u <- lift (subscript (lower email) d);
            ret (UserData u)
        | _ => raise TypeError
        end
    end).

(** ** app.py: bookings *)

Record booking_request := mkbooking_request {
  br_floor_number : Z;
  br_room_number : Z;
  br_organization : string;
  br_booked_by : booker;
  (** the outcomes of [datetime.strptime] on the two time strings *)
  br_start_time : res datetime;
  br_end_time : res datetime
}.

(** The whole-hour test of [add_boooking]. *)
Definition off_the_hour (start_t end_t : datetime) : bool :=
  negb (minute start_t =? 0) || negb (second start_t =? 0)
  || negb (minute end_t =? 0) || negb (second end_t =? 0).

Definition booking_duration (start_t end_t : datetime) : Z :=
  hours_of_delta (dt_diff end_t start_t).

(** [add_boooking]; [now] is what [datetime.now()] returns inside
    [reset_monthly_booking_hours], [uuid] what [str(uuid4())] returns inside
    [define_booking]. *)
Definition add_boooking (now : datetime) (uuid : string)
    (data : booking_request) : store -> store * reply :=
  try_except (
    do st0 <- read;
    do _ <- put (with_hours
                   (reset_monthly_booking_hours now
                      (organization_booking_hours st0)) st0);
    do start_t <- lift (br_start_time data);
    do end_t <- lift (br_end_time data);
    let organization := lower (br_organization data) in
    if off_the_hour start_t end_t then ret HourlySlotsOnly
    else
      do st <- read;
      let floor_number := br_floor_number data in
      if negb (od_mem floor_number (all_floors st))
      then ret (FloorNotAdded floor_number)
      else
        let room_number := br_room_number data in
        do fl <- lift (subscript_int floor_number (all_floors st));
        if negb (od_mem room_number (rooms fl))
        then ret (RoomNotAdded room_number)
        else
          do org <- lift (subscript organization (all_orgs st));
          do users <- lift (org_subscript "users" org);
          do emails <- lift (keys_of users);
          if negb (bool_decide (booker_email (br_booked_by data) ∈ emails))
          then ret NoSuchUser
          else
            let duration := booking_duration start_t end_t in
            let hours := organization_booking_hours st in
            let hours' :=
              match hours !! organization with
              | Some h => <[organization := h + duration]> hours
              | None => <[organization := duration]> hours
              end in
            do _ <- put (with_hours hours' st);
            if 30 <? default 0 (hours' !! organization)
            then ret MonthlyLimitReached
            else
              if negb (is_room_available (all_bookings st) floor_number
                                         room_number start_t end_t)
              then ret AlreadyBooked
              else
                let new_booking :=
                  define_booking uuid (br_floor_number data)
                                 (br_room_number data) (br_organization data)
                                 (br_booked_by data) start_t end_t in
                do st1 <- read;
                do _ <- put (with_bookings
                               (od_set (booking_id new_booking) new_booking
                                       (all_bookings st1)) st1);
                ret (Booked new_booking)).

Definition get_bookings (org_name : string) : store -> store * reply :=
  try_except (
    do st <- read;
    let bookings := list_bookings_for_organization (all_bookings st) org_name in
    ret (BookingsData bookings (List.length bookings))).

Definition get_booking (org_name booking_id : string) : store -> store * reply :=
  try_except (
    do b <- lift (get_booking_by_organization_and_id (lower org_name) booking_id);
    ret (BookingData b)).

(** [del_booking]; [now] is what [datetime.now()] returns.  The
    organization in the URL is not consulted. *)
Definition del_booking (now : datetime) (org_name booking_id : string)
  : store -> store * reply :=
  try_except (
    do st <- read;
    match od_get booking_id (all_bookings st) with
    | Some b =>
        let current_time := now in
        do limit <- lift (dt_sub_delta (start_time b) (timedelta_minutes 15));
        if to_micro current_time <? limit
        then
          do _ <- put (with_bookings (od_del booking_id (all_bookings st)) st);
          ret BookingCancelled
        else ret CancelTooLate
    | None => ret BookingNotFound
    end).

(** ** The public operations, and the stores they can reach *)

Inductive op :=
| AddFloor
| GetFloors
| GetFloor (floor_number : Z)
| AddRoom (data : room_request)
| GetRooms (now : datetime)
| SearchRooms (floor_number capacity : option Z) (start_t end_t : res datetime)
| AddOrg (org_name org_email : string)
| GetOrgs
| GetOrg (org_name : string)
| AddUser (data : user_request)
| GetUsers (org_name : string)
| GetUser (org_name email : string)
| AddBooking (now : datetime) (uuid : string) (data : booking_request)
| GetBookings (org_name : string)
| GetBooking (org_name booking_id : string)
| DelBooking (now : datetime) (org_name booking_id : string).

Definition step (o : op) : store -> store * reply :=
  match o with
  | AddFloor => add_floor
  | GetFloors => get_floors
  | GetFloor n => get_floor n
  | AddRoom data => add_room data
  | GetRooms now => get_rooms now
  | SearchRooms f c s e => search_rooms f c s e
  | AddOrg n e => add_org n e
  | GetOrgs => get_orgs
  | GetOrg n => get_org n
  | AddUser data => add_user data
  | GetUsers n => get_users n
  | GetUser n e => get_user n e
  | AddBooking now uuid data => add_boooking now uuid data
  | GetBookings n => get_bookings n
  | GetBooking n b => get_booking n b
  | DelBooking now n b => del_booking now n b
  end.

(** Running a sequence of calls: the final store and the replies. *)
Fixpoint run (ops : list op) (st : store) : store * list reply :=
  match ops with
  | [] => (st, [])
  | o :: ops' =>
      let '(st', r) := step o st in
      let '(st'', rs) := run ops' st' in
      (st'', r :: rs)
  end.

Inductive reachable : store -> Prop :=
| reach_empty : reachable empty_store
| reach_step o st : reachable st -> reachable (fst (step o st)).

(** ** Vocabulary of the properties *)

(** The test of [list_bookings_for_organization] on one booking. *)
Definition org_matches (organization_name : string) (b : booking) : bool :=
  String.eqb (lower (booking_organization b)) organization_name.

(** The sum of the capacities of the rooms of a floor. *)
Definition total_capacity (rs : odict Z room) : Z :=
  fold_right Z.add 0 (map capacity (od_values rs)).

Definition floor_within_capacity (fl : floor) : Prop :=
  floor_capacity fl = 100 /\ total_capacity (rooms fl) <= floor_capacity fl.

Definition floors_within_capacity (st : store) : Prop :=
  forall k fl, In (k, fl) (all_floors st) -> floor_within_capacity fl.

(** The store once [reset_monthly_booking_hours] has run. *)
Definition after_reset (now : datetime) (st : store) : store :=
  with_hours (reset_monthly_booking_hours now (organization_booking_hours st)) st.

(** The store once the duration has been added to the organization's
    hours. *)
Definition after_quota (now : datetime) (organization : string) (duration : Z)
    (st : store) : store :=
  with_hours
    (<[organization :=
         default 0 (organization_booking_hours (after_reset now st) !! organization)
         + duration]>
       (organization_booking_hours (after_reset now st)))
    (after_reset now st).

(** An organization dictionary as [define_organization] leaves it. *)
Definition org_without_users (org : gmap string pyval) : Prop :=
  org !! "users" = None /\ org !! "limitusers" = Some (VUsers []).

Definition no_users_no_bookings (st : store) : Prop :=
  (forall k org, In (k, org) (all_orgs st) -> org_without_users org)
  /\ all_bookings st = []
  /\ organization_booking_hours st = ∅.

(** The floors are numbered 0, 1, 2, ... in the order they were added, each
    stored under its own number. *)
Definition floors_numbered (st : store) : Prop :=
  od_keys (all_floors st) = map Z.of_nat (seq 0 (List.length (all_floors st)))
  /\ forall k fl, In (k, fl) (all_floors st) -> floor_number fl = k.

(** Every organization is stored under a lower-case name, which is also
    its ["org_name"]. *)
Definition orgs_lowercase (st : store) : Prop :=
  forall k org, In (k, org) (all_orgs st) ->
                lower k = k /\ org !! "org_name" = Some (VStr k).

(** No two stored bookings of one room clash. *)
Definition no_double_booking (bs : odict string booking) : Prop :=
  forall k1 b1 k2 b2,
    k1 <> k2 -> od_get k1 bs = Some b1 -> od_get k2 bs = Some b2 ->
    booking_floor_number b1 = booking_floor_number b2 ->
    booking_room_number b1 = booking_room_number b2 ->
    clashes (start_time b1) (end_time b1) b2 = false.

(** The stored dictionaries have distinct keys, and every room carries the
    number it is stored under and the number of the floor it is stored on. *)
Definition well_keyed (st : store) : Prop :=
  List.NoDup (od_keys (all_floors st))
  /\ List.NoDup (od_keys (all_orgs st))
  /\ forall f fl,
       In (f, fl) (all_floors st) ->
       List.NoDup (od_keys (rooms fl))
       /\ forall r room, In (r, room) (rooms fl) ->
                         room_number room = r /\ room_floor_number room = f.

(** ** Stores and requests the properties are tried on *)

Definition acme_user : user :=
  mkuser "User One" "acme" "e1" "u1@acme.com" "dev" "all".

Definition user_one : user_request :=
  mkuser_request "User One" "acme" "e1" "u1@acme.com" "dev" "all".

(** Room 101 of floor 0 on 2024-03-01 from 9 to 10, booked for "Acme". *)
Definition acme_booking : booking :=
  mkbooking "b-1" 0 101 "Acme" (mkbooker "User One" "u1@acme.com")
            (mkdt 2024 3 1 9 0 0 0) (mkdt 2024 3 1 10 0 0 0).

Definition acme_bookings_store : store :=
  with_bookings [("b-1", acme_booking)] empty_store.

Definition two_floors_ops : list op :=
  [AddFloor; AddFloor;
   AddRoom (mkroom_request 0 1 10); AddRoom (mkroom_request 1 2 10)].

Definition two_floors_store : store := fst (run two_floors_ops empty_store).

Definition one_room_store : store :=
  fst (run [AddFloor; AddRoom (mkroom_request 0 101 20)] empty_store).

Definition acme_store : store :=
  fst (run [AddOrg "acme" "a@x.com"] empty_store).

(** A store in which organization "acme" does have a user, has booked 29
    hours, and room 101 of floor 0 is taken on 2024-03-01 from 9 to 10. *)
Definition busy_store : store :=
  mkstore [("b-1", acme_booking)]
          [(0, mkfloor 0 100 [(101, mkroom 101 20 0 None)])]
          [("acme", {[ "org_name" := VStr "acme";
                       "org_email" := VStr "a@x.com";
                       "users" := VUsers [("u1@acme.com", acme_user)] ]})]
          {[ "acme" := 29 ]}.

Definition nine_to_ten : booking_request :=
  mkbooking_request 0 101 "acme" (mkbooker "User One" "u1@acme.com")
                    (Ret (mkdt 2024 3 1 9 0 0 0)) (Ret (mkdt 2024 3 1 10 0 0 0)).

Definition half_past_nine : booking_request :=
  mkbooking_request 0 101 "acme" (mkbooker "User One" "u1@acme.com")
                    (Ret (mkdt 2024 3 1 9 30 0 0)) (Ret (mkdt 2024 3 1 10 30 0 0)).

Definition off_hour_no_floor : booking_request :=
  mkbooking_request 5 7 "acme" (mkbooker "User One" "u1@acme.com")
                    (Ret (mkdt 2024 3 1 9 30 0 0)) (Ret (mkdt 2024 3 1 10 0 0 0)).

Definition no_floor_no_room : booking_request :=
  mkbooking_request 5 7 "acme" (mkbooker "User One" "u1@acme.com")
                    (Ret (mkdt 2024 3 1 9 0 0 0)) (Ret (mkdt 2024 3 1 10 0 0 0)).

(** The scenario: floor, room, organization, user, two bookings. *)
Definition scenario_now : datetime := mkdt 2024 2 20 12 0 0 0.

Definition scenario_setup : list op :=
  [AddFloor; AddRoom (mkroom_request 0 101 20); AddOrg "acme" "a@x.com"].

Definition scenario : list op :=
  scenario_setup
  ++ [AddUser user_one;
      AddBooking scenario_now "b-1" nine_to_ten;
      AddBooking scenario_now "b-2" half_past_nine].

(** A booking whose organization is spelled in lower case. *)
Definition lower_case_booking : booking :=
  mkbooking "b-7" 0 101 "acme" (mkbooker "User One" "u1@acme.com")
            (mkdt 2024 3 1 9 0 0 0) (mkdt 2024 3 1 10 0 0 0).

Definition lower_case_store : store :=
  with_bookings [("b-7", lower_case_booking)] one_room_store.


(** A request whose end lies an hour before its start. *)
Definition twelve_to_eleven : booking_request :=
  mkbooking_request 0 101 "acme" (mkbooker "User One" "u1@acme.com")
                    (Ret (mkdt 2024 3 1 12 0 0 0)) (Ret (mkdt 2024 3 1 11 0 0 0)).

Definition ten_to_eleven : booking_request :=
  mkbooking_request 0 101 "acme" (mkbooker "User One" "u1@acme.com")
                    (Ret (mkdt 2024 3 1 10 0 0 0)) (Ret (mkdt 2024 3 1 11 0 0 0)).

(** A store with floor 0, room 101 and organization "acme" whose ["users"]
    dictionary is still empty, and a user whose email has capital letters. *)
Definition ready_store : store :=
  mkstore [] [(0, mkfloor 0 100 [(101, mkroom 101 20 0 None)])]
          [("acme", {[ "org_name" := VStr "acme";
                       "org_email" := VStr "a@x.com";
                       "users" := VUsers [] ]})]
          ∅.

Definition user_capitals : user_request :=
  mkuser_request "User One" "acme" "E1" "U1@Acme.com" "dev" "all".

Definition nine_to_ten_capitals : booking_request :=
  mkbooking_request 0 101 "acme" (mkbooker "User One" "U1@Acme.com")
                    (Ret (mkdt 2024 3 1 9 0 0 0)) (Ret (mkdt 2024 3 1 10 0 0 0)).

(** A whole-hour request for room 101 of floor 0 by somebody "acme" does
    not know. *)
Definition nine_to_ten_stranger : booking_request :=
  mkbooking_request 0 101 "acme" (mkbooker "Nobody" "nobody@acme.com")
                    (Ret (mkdt 2024 3 1 9 0 0 0)) (Ret (mkdt 2024 3 1 10 0 0 0)).

(** A whole-hour request for a room that floor 0 does not have. *)
Definition nine_to_ten_no_room : booking_request :=
  mkbooking_request 0 7 "acme" (mkbooker "User One" "u1@acme.com")
                    (Ret (mkdt 2024 3 1 9 0 0 0)) (Ret (mkdt 2024 3 1 10 0 0 0)).

(** The store of the scenario once floor, room and organization are there. *)
Definition scenario_store : store := fst (run scenario_setup empty_store).

(** ** Proof steps used throughout *)

Ltac split_andb :=
  repeat match goal with
         | H : _ && _ = true |- _ => apply andb_true_iff in H as [? ?]
         end.

Ltac unfold_handler :=
  unfold try_except, no_try, bind, read, put, ret, raise, lift,
    subscript, subscript_int, org_subscript.

(** Case analysis on every [match] and [if] of the goal, innermost first. *)
Ltac case_all :=
  repeat (simpl;
          match goal with
          | |- context [match ?x with _ => _ end] =>
              lazymatch x with
              | context [match _ with _ => _ end] => fail
              | _ => destruct x eqn:?
              end
          end).

(** * Properties *)

(** ** Ordered dictionaries *)

Section odict_facts.
Context {K V : Type} `{EqDecision K}.
Implicit Types (d : odict K V) (k : K) (v : V).

Lemma od_get_set_eq k v d : od_get k (od_set k v d) = Some v.
Proof.
  induction d as [|[k' v'] d IH]; simpl.
  - destruct (decide (k = k)); congruence.
  - destruct (decide (k = k')) as [->|Hne]; simpl.
    + destruct (decide (k' = k')); congruence.
    + destruct (decide (k = k')); [congruence | exact IH].
Qed.

Lemma od_get_set_ne k k' v d : k <> k' -> od_get k' (od_set k v d) = od_get k' d.
Proof.
  intros Hne. induction d as [|[k0 v0] d IH]; simpl.
  - destruct (decide (k' = k)); congruence.
  - destruct (decide (k = k0)) as [->|Hk]; simpl.
    + destruct (decide (k' = k0)); congruence.
    + destruct (decide (k' = k0)); [reflexivity | exact IH].
Qed.

Lemma od_get_In k v d : od_get k d = Some v -> In (k, v) d.
Proof.
  induction d as [|[k' v'] d IH]; simpl; [discriminate|].
  destruct (decide (k = k')) as [->|Hne].
  - intros [= ->]. now left.
  - intros Hg. right. now apply IH.
Qed.

Lemma od_get_None_keys k d : od_get k d = None <-> ~ In k (od_keys d).
Proof.
  induction d as [|[k' v'] d IH]; simpl.
  - tauto.
  - destruct (decide (k = k')) as [->|Hne].
    + split; [discriminate | intros Hn; exfalso; apply Hn; now left].
    + rewrite IH. split.
      * intros Hn [He|Hi]; [congruence | now apply Hn].
      * intros Hn Hi. apply Hn. now right.
Qed.

Lemma od_mem_true k d : od_mem k d = true <-> exists v, od_get k d = Some v.
Proof.
  unfold od_mem. destruct (od_get k d) as [v|].
  - split; [eauto | reflexivity].
  - split; [discriminate | intros [v Hv]; discriminate].
Qed.

Lemma od_mem_false k d : od_mem k d = false <-> od_get k d = None.
Proof.
  unfold od_mem. destruct (od_get k d); split; congruence.
Qed.

Lemma od_set_In k v d k0 v0 :
  In (k0, v0) (od_set k v d) -> (k0 = k /\ v0 = v) \/ In (k0, v0) d.
Proof.
  induction d as [|[k' v'] d IH]; simpl.
  - intros [[= <- <-]|[]]. now left.
  - destruct (decide (k = k')) as [->|Hne]; simpl.
    + intros [[= <- <-]|Hi]; [now left | right; now right].
    + intros [He|Hi]; [right; now left|].
      destruct (IH Hi) as [Hl|Hr]; [now left | right; now right].
Qed.

Lemma od_del_get_NoDup k d : List.NoDup (od_keys d) -> od_get k (od_del k d) = None.
Proof.
  induction d as [|[k' v'] d IH]; simpl; [reflexivity|].
  intros Hnd. apply NoDup_cons_iff in Hnd as [Hni Hnd].
  destruct (decide (k = k')) as [->|Hne]; simpl.
  - now apply od_get_None_keys.
  - destruct (decide (k = k')); [congruence | now apply IH].
Qed.

Lemma od_del_get_ne k k' d : k <> k' -> od_get k' (od_del k d) = od_get k' d.
Proof.
  intros Hne. induction d as [|[k0 v0] d IH]; simpl; [reflexivity|].
  destruct (decide (k = k0)) as [->|Hk]; simpl.
  - destruct (decide (k' = k0)); congruence.
  - destruct (decide (k' = k0)); [reflexivity | exact IH].
Qed.
End odict_facts.

(** ** Availability (service/booking.py) *)

Lemma none_clashes_false start_t end_t bs :
  none_clashes start_t end_t bs = false <->
  exists b, In b bs /\ clashes start_t end_t b = true.
Proof.
  induction bs as [|b bs IH]; simpl.
  - split; [discriminate | intros (b & [] & _)].
  - destruct (clashes start_t end_t b) eqn:Hc.
    + split; [intros _; exists b; auto | reflexivity].
    + rewrite IH. split.
      * intros (b' & Hin & Hb'). exists b'. auto.
      * intros (b' & [<-|Hin] & Hb'); [congruence | exists b'; auto].
Qed.

Lemma none_clashes_app start_t end_t bs1 bs2 :
  none_clashes start_t end_t (bs1 ++ bs2)
  = none_clashes start_t end_t bs1 && none_clashes start_t end_t bs2.
Proof.
  induction bs1 as [|b bs1 IH]; simpl; [reflexivity|].
  destruct (clashes start_t end_t b); [reflexivity | exact IH].
Qed.

(** A booking never clashes with a slot that starts when it ends. *)
Lemma clashes_back_to_back b end_t : clashes (end_time b) end_t b = false.
Proof.
  unfold clashes, dt_ltb. rewrite Z.ltb_irrefl. reflexivity.
Qed.

(** C3. [is_room_available] answers [False] exactly when some stored
    booking of the same floor and room starts before the slot ends and ends
    after the slot starts.  A booking that ends exactly when the slot
    starts plays no part in the answer, and when it is the only booking the
    answer is [True]. *)
Theorem is_room_available_spec :
  (forall bookings floor_number room_number start_t end_t,
      is_room_available bookings floor_number room_number start_t end_t = false
      <-> exists b,
            In b (od_values bookings)
            /\ booking_floor_number b = floor_number
            /\ booking_room_number b = room_number
            /\ dt_ltb (start_time b) end_t = true
            /\ dt_ltb start_t (end_time b) = true)
  /\ (forall pre id b post floor_number room_number end_t,
         is_room_available (pre ++ (id, b) :: post) floor_number room_number
                           (end_time b) end_t
         = is_room_available (pre ++ post) floor_number room_number
                             (end_time b) end_t)
  /\ (forall id b floor_number room_number end_t,
         is_room_available [(id, b)] floor_number room_number
                           (end_time b) end_t = true).
Proof.
  split; [|split].
  - intros bookings f r s e. unfold is_room_available.
    rewrite none_clashes_false. split.
    + intros (b & Hin & Hc). apply filter_In in Hin as [Hin Hsame].
      unfold same_room in Hsame. apply andb_true_iff in Hsame as [Hf Hr].
      unfold clashes in Hc. apply andb_true_iff in Hc as [H1 H2].
      exists b. repeat split; auto; lia.
    + intros (b & Hin & Hf & Hr & H1 & H2). exists b. split.
      * apply filter_In. split; [exact Hin|].
        unfold same_room. rewrite Hf, Hr, !Z.eqb_refl. reflexivity.
      * unfold clashes. now rewrite H1, H2.
  - intros pre id b post f r e. unfold is_room_available, od_values.
    rewrite !List.map_app, !List.filter_app, !none_clashes_app. simpl.
    destruct (same_room f r b); [|reflexivity].
    simpl. rewrite clashes_back_to_back. reflexivity.
  - intros id b f r e. unfold is_room_available. simpl.
    destruct (same_room f r b); [|reflexivity].
    simpl. rewrite clashes_back_to_back. reflexivity.
Qed.

(** ** Listing the bookings of an organization *)

Lemma list_bookings_fold organization_name (bs : odict string booking) acc :
  fold_left
    (fun acc kv =>
       if String.eqb (lower (booking_organization (snd kv))) organization_name
       then acc ++ [snd kv] else acc)
    bs acc
  = acc ++ List.filter (org_matches organization_name) (od_values bs).
Proof.
  revert acc. induction bs as [|[k b] bs IH]; intros acc; simpl.
  - now rewrite app_nil_r.
  - rewrite IH. unfold org_matches at 2.
    destruct (String.eqb _ _); [|reflexivity].
    now rewrite <- app_assoc.
Qed.

Lemma list_bookings_for_organization_filter bs organization_name :
  list_bookings_for_organization bs organization_name
  = List.filter (org_matches organization_name) (od_values bs).
Proof. unfold list_bookings_for_organization. now rewrite list_bookings_fold. Qed.

(** C10. What [get_bookings] does with the letter case of the name it is
    given: the stored organization is lowered, the queried name is used as
    it comes.  A booking stored for "Acme" is listed for "acme" and for no
    other spelling; in general a booking is listed exactly when its lowered
    organization equals the queried name character for character. *)
Theorem get_bookings_query_not_lowered :
  snd (get_bookings "acme" acme_bookings_store) = BookingsData [acme_booking] 1
  /\ snd (get_bookings "ACME" acme_bookings_store) = BookingsData [] 0
  /\ snd (get_bookings "Acme" acme_bookings_store) = BookingsData [] 0
  /\ (forall st org_name,
         get_bookings org_name st
         = (st, let l := List.filter (org_matches org_name)
                                     (od_values (all_bookings st)) in
                BookingsData l (List.length l))).
Proof.
  repeat split.
  intros st org_name. unfold get_bookings, try_except, bind, read, ret.
  now rewrite list_bookings_for_organization_filter.
Qed.

(** ** Searching rooms *)

Lemma search_rooms_ignores_floor floor_number capacity_arg start_t end_t st :
  search_rooms floor_number capacity_arg start_t end_t st
  = search_rooms None capacity_arg start_t end_t st.
Proof. reflexivity. Qed.

(** C6. [search_rooms] with the filter [floor_number = 0] on a store with
    one room on floor 0 and one on floor 1, no booking: both rooms are
    listed, the one on floor 1 included. *)
Theorem search_rooms_floor_filter_unused :
  snd (run two_floors_ops empty_store)
  = [FloorAdded; FloorAdded; RoomAdded; RoomAdded]
  /\ snd (search_rooms (Some 0) None
            (Ret (mkdt 2024 3 1 9 0 0 0)) (Ret (mkdt 2024 3 1 10 0 0 0))
            two_floors_store)
     = AvailableRooms [(0, 1, 10); (1, 2, 10)].
Proof. split; reflexivity. Qed.

(** ** Dates *)

Lemma days_before_year_nonneg y : 1 <= y -> 0 <= days_before_year y.
Proof.
  intros Hy. unfold days_before_year. cbv zeta.
  assert (Hp : 0 <= y - 1) by lia.
  pose proof (Z.div_le_compat_l (y - 1) 4 100 Hp ltac:(lia)) as H1.
  pose proof (Z.div_pos (y - 1) 400 Hp ltac:(lia)) as H2.
  lia.
Qed.

Lemma days_before_month_nonneg y m : 1 <= m <= 12 -> 0 <= days_before_month y m.
Proof.
  intros Hm. unfold days_before_month.
  assert (Hif : 0 <= (if (2 <? m) && is_leap y then 1 else 0))
    by (destruct ((2 <? m) && is_leap y); lia).
  assert (Hc : m = 1 \/ m = 2 \/ m = 3 \/ m = 4 \/ m = 5 \/ m = 6 \/ m = 7
               \/ m = 8 \/ m = 9 \/ m = 10 \/ m = 11 \/ m = 12) by lia.
  assert (Hn : 0 <= nth (Z.to_nat m) days_before_month_table 0).
  { repeat (destruct Hc as [->|Hc]; [simpl; lia|]). subst m. simpl. lia. }
  lia.
Qed.

(** Every [datetime] value lies at or after day 1 of the time line. *)
Lemma valid_datetime_to_micro d :
  valid_datetime d = true -> us_per_day <= to_micro d.
Proof.
  unfold valid_datetime. intros Hv. split_andb.
  pose proof (days_before_year_nonneg (year d) ltac:(lia)).
  pose proof (days_before_month_nonneg (year d) (month d) ltac:(lia)).
  unfold to_micro, toordinal, us_per_day, us_per_second. lia.
Qed.

Lemma days_in_year_bound y m d :
  1 <= m <= 12 -> d <= days_in_month y m ->
  days_before_month y m + d <= 365 + (if is_leap y then 1 else 0).
Proof.
  intros Hm Hd. unfold days_before_month, days_in_month in *.
  assert (Hc : m = 1 \/ m = 2 \/ m = 3 \/ m = 4 \/ m = 5 \/ m = 6 \/ m = 7
               \/ m = 8 \/ m = 9 \/ m = 10 \/ m = 11 \/ m = 12) by lia.
  destruct (is_leap y);
    repeat (destruct Hc as [->|Hc]; [simpl in *; lia|]); subst m; simpl in *; lia.
Qed.

(** The day number of a [datetime] value lies in [1 .. max_ordinal]. *)
Lemma valid_datetime_ordinal d :
  valid_datetime d = true -> 1 <= toordinal d <= max_ordinal.
Proof.
  unfold valid_datetime. intros Hv. split_andb.
  pose proof (days_before_year_nonneg (year d) ltac:(lia)).
  pose proof (days_before_month_nonneg (year d) (month d) ltac:(lia)).
  pose proof (days_in_year_bound (year d) (month d) (day d) ltac:(lia) ltac:(lia))
    as Hb.
  unfold toordinal, max_ordinal. split; [lia|].
  destruct (Z.eq_dec (year d) 9999) as [Hy|Hy].
  - rewrite Hy in *. change (if is_leap 9999 then 1 else 0) with 0 in Hb.
    change (days_before_year 9999) with 3651694. lia.
  - assert (Hl : (if is_leap (year d) then 1 else 0) <= 1)
      by (destruct (is_leap (year d)); lia).
    assert (Hy' : days_before_year (year d) <= 3651693).
    { unfold days_before_year. cbv zeta.
      pose proof (Z.div_lt_upper_bound (year d - 1) 4 2500 ltac:(lia) ltac:(lia)).
      pose proof (Z.div_pos (year d - 1) 100 ltac:(lia) ltac:(lia)).
      pose proof (Z.div_lt_upper_bound (year d - 1) 400 25 ltac:(lia) ltac:(lia)).
      lia. }
    lia.
Qed.

(** The duration of a slot between two whole hours with no fraction of a
    second is a whole number of hours. *)
Lemma booking_duration_exact start_t end_t :
  off_the_hour start_t end_t = false ->
  microsecond start_t = 0 -> microsecond end_t = 0 ->
  dt_diff end_t start_t = booking_duration start_t end_t * (3600 * us_per_second).
Proof.
  unfold off_the_hour. intros Hoff Hs He.
  repeat (apply orb_false_iff in Hoff as [Hoff ?]).
  repeat match goal with
         | H : negb _ = false |- _ => apply negb_false_iff, Z.eqb_eq in H
         end.
  unfold booking_duration, hours_of_delta, dt_diff, to_micro.
  rewrite Hs, He, H, H0, H1, Hoff. unfold us_per_second.
  set (a := toordinal end_t). set (b := toordinal start_t).
  replace ((a * 86400 + hour end_t * 3600 + 0 * 60 + 0) * 1000000 + 0
           - ((b * 86400 + hour start_t * 3600 + 0 * 60 + 0) * 1000000 + 0))
    with (((a - b) * 24 + (hour end_t - hour start_t)) * (3600 * 1000000))
    by lia.
  rewrite Z.div_mul by lia. reflexivity.
Qed.

(** ** Cancelling a booking *)

Lemma del_booking_found now org_name id st b :
  od_get id (all_bookings st) = Some b ->
  del_booking now org_name id st
  = match dt_sub_delta (start_time b) (timedelta_minutes 15) with
    | Raise e => (st, Caught e)
    | Ret limit =>
        if to_micro now <? limit
        then (with_bookings (od_del id (all_bookings st)) st, BookingCancelled)
        else (st, CancelTooLate)
    end.
Proof.
  intros Hg. unfold del_booking, try_except, bind, read, lift, put, ret.
  rewrite Hg. destruct (dt_sub_delta _ _) as [limit|e]; [|reflexivity].
  destruct (to_micro now <? limit); reflexivity.
Qed.

Lemma del_booking_missing now org_name id st :
  od_get id (all_bookings st) = None ->
  del_booking now org_name id st = (st, BookingNotFound).
Proof.
  intros Hg. unfold del_booking, try_except, bind, read, ret. now rewrite Hg.
Qed.

Lemma valid_datetime_upper d :
  valid_datetime d = true -> to_micro d < (max_ordinal + 1) * us_per_day.
Proof.
  intros Hv. pose proof (valid_datetime_ordinal d Hv) as Ho.
  unfold valid_datetime in Hv. split_andb.
  unfold to_micro, us_per_day, us_per_second, max_ordinal in *. lia.
Qed.

(** [start - timedelta(minutes=15)] for a stored start time: either the
    instant 15 minutes earlier, or an overflow, and then that instant lies
    before day 1, where no current time can be. *)
Lemma cancel_limit start :
  valid_datetime start = true ->
  match dt_sub_delta start (timedelta_minutes 15) with
  | Ret limit => limit = to_micro start - timedelta_minutes 15
  | Raise _ => to_micro start - timedelta_minutes 15 < us_per_day
  end.
Proof.
  intros Hstart. unfold dt_sub_delta. cbv zeta.
  set (t := to_micro start - timedelta_minutes 15).
  destruct ((0 <? t / us_per_day) && (t / us_per_day <=? max_ordinal)) eqn:Hr;
    [reflexivity|].
  apply valid_datetime_upper in Hstart.
  assert (Hle : t <= to_micro start)
    by (subst t; unfold timedelta_minutes, us_per_second; lia).
  assert (Hday : 0 < us_per_day) by (unfold us_per_day, us_per_second; lia).
  apply andb_false_iff in Hr as [Hr|Hr].
  - apply Z.ltb_ge in Hr.
    destruct (Z_lt_le_dec t us_per_day) as [Hlt|Hge]; [lia|].
    pose proof (Z.div_str_pos t us_per_day ltac:(lia)). lia.
  - apply Z.leb_gt in Hr.
    pose proof (Z.div_lt_upper_bound t us_per_day (max_ordinal + 1) Hday
                  ltac:(lia)).
    lia.
Qed.

(** C5. [del_booking] answers "cancelled" exactly when the booking is
    stored and the current time is strictly before its start minus 15
    minutes, and then the booking is gone from the store and nothing else
    has changed; in every other case the store is left as it was.  At
    exactly 15 minutes before the start the answer is "too late"; for an
    id that is not stored it is "not found". *)
Theorem del_booking_spec now org_name id st :
  valid_datetime now = true ->
  (forall b, od_get id (all_bookings st) = Some b ->
             valid_datetime (start_time b) = true) ->
  List.NoDup (od_keys (all_bookings st)) ->
  let st' := fst (del_booking now org_name id st) in
  let r := snd (del_booking now org_name id st) in
  (r = BookingCancelled
   <-> exists b, od_get id (all_bookings st) = Some b
                 /\ to_micro now < to_micro (start_time b) - timedelta_minutes 15)
  /\ (r = BookingCancelled ->
      st' = with_bookings (od_del id (all_bookings st)) st
      /\ od_get id (all_bookings st') = None
      /\ forall id', id' <> id ->
                     od_get id' (all_bookings st') = od_get id' (all_bookings st))
  /\ (r <> BookingCancelled -> st' = st)
  /\ (forall b, od_get id (all_bookings st) = Some b ->
                to_micro now = to_micro (start_time b) - timedelta_minutes 15 ->
                r = CancelTooLate /\ st' = st)
  /\ (od_get id (all_bookings st) = None -> r = BookingNotFound /\ st' = st).
Proof.
  intros Hnow Hvalid Hnd st' r. subst st' r.
  destruct (od_get id (all_bookings st)) as [b|] eqn:Hg.
  - rewrite (del_booking_found _ _ _ _ _ Hg).
    pose proof (cancel_limit (start_time b) (Hvalid b eq_refl)) as Hl.
    pose proof (valid_datetime_to_micro now Hnow) as Hday1.
    destruct (dt_sub_delta (start_time b) (timedelta_minutes 15)) as [limit|e].
    + subst limit.
      destruct (to_micro now <? _) eqn:Hlt; simpl.
      * apply Z.ltb_lt in Hlt. split; [|split; [|split; [|split]]].
        -- split; [intros _; exists b; auto | reflexivity].
        -- intros _. split; [reflexivity|]. split.
           ++ now apply od_del_get_NoDup.
           ++ intros id' Hne. apply od_del_get_ne. congruence.
        -- congruence.
        -- intros b' [= <-] Heq. lia.
        -- discriminate.
      * apply Z.ltb_ge in Hlt. split; [|split; [|split; [|split]]].
        -- split; [discriminate|]. intros (b' & [= <-] & Hb'). lia.
        -- discriminate.
        -- reflexivity.
        -- auto.
        -- discriminate.
    + simpl. split; [|split; [|split; [|split]]].
      * split; [discriminate|]. intros (b' & [= <-] & Hb'). lia.
      * discriminate.
      * reflexivity.
      * intros b' [= <-] Heq. lia.
      * discriminate.
  - rewrite (del_booking_missing _ _ _ _ Hg). simpl.
    split; [|split; [|split; [|split]]].
    + split; [discriminate|]. intros (b & Hb & _). discriminate.
    + discriminate.
    + reflexivity.
    + discriminate.
    + auto.
Qed.

Lemma del_booking_spec_witness :
  snd (del_booking (mkdt 2024 3 1 8 44 59 0) "acme" "b-1" acme_bookings_store)
  = BookingCancelled
  /\ all_bookings
       (fst (del_booking (mkdt 2024 3 1 8 44 59 0) "acme" "b-1"
                         acme_bookings_store)) = []
  /\ del_booking (mkdt 2024 3 1 8 45 0 0) "acme" "b-1" acme_bookings_store
     = (acme_bookings_store, CancelTooLate).
Proof.
  assert (Hvalid : forall b, od_get "b-1" (all_bookings acme_bookings_store) = Some b ->
                             valid_datetime (start_time b) = true).
  { intros b Hb. vm_compute in Hb. injection Hb as <-. reflexivity. }
  assert (Hnd : List.NoDup (od_keys (all_bookings acme_bookings_store))).
  { simpl. constructor; [intros [] | constructor]. }
  pose proof (del_booking_spec (mkdt 2024 3 1 8 44 59 0) "acme" "b-1"
                acme_bookings_store eq_refl Hvalid Hnd) as (Hiff & Hgone & _).
  pose proof (del_booking_spec (mkdt 2024 3 1 8 45 0 0) "acme" "b-1"
                acme_bookings_store eq_refl Hvalid Hnd) as (_ & _ & _ & Hlate & _).
  assert (Hc : snd (del_booking (mkdt 2024 3 1 8 44 59 0) "acme" "b-1"
                                acme_bookings_store) = BookingCancelled).
  { apply Hiff. exists acme_booking. split; [reflexivity | vm_compute; reflexivity]. }
  split; [exact Hc|]. split.
  - destruct (Hgone Hc) as (-> & _). reflexivity.
  - destruct (Hlate acme_booking eq_refl eq_refl) as [Hr Hs].
    rewrite (surjective_pairing (del_booking _ _ _ _)). now rewrite Hr, Hs.
Defined.

(** ** Floor capacity *)

Lemma used_capacity_fold (rs : list room) acc :
  fold_left (fun used r => used + capacity r) rs acc
  = acc + fold_right Z.add 0 (map capacity rs).
Proof.
  revert acc. induction rs as [|r rs IH]; intros acc; simpl; [lia|].
  rewrite IH. lia.
Qed.

Lemma calculate_available_capacity_total fl :
  calculate_available_capacity fl = floor_capacity fl - total_capacity (rooms fl).
Proof.
  unfold calculate_available_capacity, total_capacity. cbv zeta.
  rewrite used_capacity_fold. lia.
Qed.

Lemma total_capacity_set_new k r (rs : odict Z room) :
  od_get k rs = None ->
  total_capacity (od_set k r rs) = total_capacity rs + capacity r.
Proof.
  unfold total_capacity, od_values.
  induction rs as [|[k' r'] rs IH]; simpl; [lia|].
  destruct (decide (k = k')); [discriminate|].
  intros Hg. simpl. rewrite (IH Hg). lia.
Qed.

Lemma add_floor_floors st :
  add_floor st
  = (with_floors
       (od_set (if (List.length (all_floors st) =? 0)%nat then 0
                else List.last (od_keys (all_floors st)) 0 + 1)
               (define_floor (if (List.length (all_floors st) =? 0)%nat then 0
                              else List.last (od_keys (all_floors st)) 0 + 1))
               (all_floors st)) st,
     FloorAdded).
Proof. reflexivity. Qed.

(** The three outcomes of [add_room] on a floor that exists. *)
Lemma add_room_cases data st fl :
  od_get (rr_floor_number data) (all_floors st) = Some fl ->
  add_room data st
  = if od_mem (rr_room_number data) (rooms fl)
    then (st, RoomAlreadyExists (rr_room_number data))
    else if calculate_available_capacity fl <? rr_capacity data
    then (st, FloorHasCapacity (rr_floor_number data)
                               (calculate_available_capacity fl))
    else (with_floors
            (od_set (rr_floor_number data)
               (with_rooms
                  (od_set (rr_room_number data)
                     (define_room (rr_room_number data) (rr_capacity data)
                                  (rr_floor_number data))
                     (rooms fl)) fl)
               (all_floors st)) st,
          RoomAdded).
Proof.
  intros Hg. unfold add_room, od_mem at 1. unfold_handler. rewrite Hg. simpl.
  destruct (od_mem _ (rooms fl)); [reflexivity|].
  destruct (_ <? _); reflexivity.
Qed.

Lemma add_room_no_floor data st :
  od_get (rr_floor_number data) (all_floors st) = None ->
  add_room data st = (st, FloorNotBeenAdded (rr_floor_number data)).
Proof.
  intros Hg. unfold add_room, od_mem. unfold_handler. now rewrite Hg.
Qed.

Lemma add_room_preserves data st :
  floors_within_capacity st -> floors_within_capacity (fst (add_room data st)).
Proof.
  intros Hinv.
  destruct (od_get (rr_floor_number data) (all_floors st)) as [fl|] eqn:Hg.
  - rewrite (add_room_cases _ _ _ Hg).
    destruct (od_mem _ (rooms fl)) eqn:Hmem; [exact Hinv|].
    destruct (_ <? _) eqn:Hcap; [exact Hinv|].
    intros k fl' Hin. simpl in Hin. apply od_set_In in Hin as [[-> ->]|Hin].
    + destruct (Hinv _ _ (od_get_In _ _ _ Hg)) as [H100 Hle].
      apply od_mem_false in Hmem. apply Z.ltb_ge in Hcap.
      rewrite calculate_available_capacity_total in Hcap.
      split; simpl; [exact H100|].
      rewrite (total_capacity_set_new _ _ _ Hmem). simpl. lia.
    + now apply (Hinv k).
  - now rewrite (add_room_no_floor _ _ Hg).
Qed.

Lemma total_capacity_marked (f : Z -> room -> bool) (rs : odict Z room) :
  total_capacity
    (map (fun '(room_number, room_info) =>
            (room_number, with_available (f room_number room_info) room_info)) rs)
  = total_capacity rs.
Proof.
  unfold total_capacity, od_values.
  induction rs as [|[k r] rs IH]; simpl; [reflexivity|]. now rewrite IH.
Qed.

Lemma get_rooms_preserves now st :
  floors_within_capacity st -> floors_within_capacity (fst (get_rooms now st)).
Proof.
  intros Hinv k fl' Hin. unfold get_rooms, list_rooms_with_availability in Hin.
  simpl in Hin. apply in_map_iff in Hin as ([k0 fl] & Heq & Hin).
  injection Heq as <- <-. destruct (Hinv _ _ Hin) as [H100 Hle].
  split; simpl; [exact H100|].
  rewrite (total_capacity_marked
             (fun n _ => is_room_available (all_bookings st) k0 n now now)).
  exact Hle.
Qed.

(** The handlers that leave the floors alone. *)
Lemma step_floors_unchanged o st :
  match o with AddFloor | AddRoom _ | GetRooms _ => False | _ => True end ->
  all_floors (fst (step o st)) = all_floors st.
Proof.
  destruct o; intros Ho; try contradiction; simpl;
    [ unfold get_floors | unfold get_floor | unfold search_rooms
    | unfold add_org | unfold get_orgs | unfold get_org | unfold add_user
    | unfold get_users | unfold get_user | unfold add_boooking
    | unfold get_bookings | unfold get_booking | unfold del_booking ];
    unfold_handler; case_all; reflexivity.
Qed.

Lemma step_floors_within_capacity o st :
  floors_within_capacity st -> floors_within_capacity (fst (step o st)).
Proof.
  intros Hinv.
  destruct o;
    try (unfold floors_within_capacity;
         rewrite step_floors_unchanged by exact I; exact Hinv).
  - change (floors_within_capacity (fst (add_floor st))).
    rewrite add_floor_floors. intros k fl Hin. simpl in Hin.
    apply od_set_In in Hin as [[-> ->]|Hin]; [|now apply (Hinv k)].
    split; simpl; [reflexivity | unfold total_capacity; simpl; lia].
  - now apply add_room_preserves.
  - now apply get_rooms_preserves.
Qed.

Lemma reachable_floors_within_capacity st :
  reachable st -> floors_within_capacity st.
Proof.
  induction 1 as [|o st Hr IH].
  - intros k fl [].
  - now apply step_floors_within_capacity.
Qed.

Lemma run_cons o ops st :
  run (o :: ops) st
  = (fst (run ops (fst (step o st))),
     snd (step o st) :: snd (run ops (fst (step o st)))).
Proof.
  simpl. destruct (step o st) as [st' r]. simpl.
  destruct (run ops st') as [st'' rs]. reflexivity.
Qed.

Lemma reachable_run ops st : reachable st -> reachable (fst (run ops st)).
Proof.
  revert st. induction ops as [|o ops IH]; intros st Hr; [exact Hr|].
  rewrite run_cons. simpl. apply IH. now constructor.
Qed.

(** C7. In every store the handlers can produce, and so after every
    successful [add_room], each floor has capacity 100 and the capacities
    of its rooms sum to at most that.  On an existing floor [add_room]
    refuses a room number that is already there, refuses a capacity larger
    than what the floor has left, in both cases leaving the store as it
    was, and adds the room in the remaining case. *)
Theorem add_room_within_capacity st data :
  reachable st ->
  let st' := fst (add_room data st) in
  let r := snd (add_room data st) in
  (forall k fl, In (k, fl) (all_floors st') ->
                floor_capacity fl = 100 /\ total_capacity (rooms fl) <= 100)
  /\ (forall fl,
         od_get (rr_floor_number data) (all_floors st) = Some fl ->
         let available := floor_capacity fl - total_capacity (rooms fl) in
         (od_mem (rr_room_number data) (rooms fl) = true ->
          r = RoomAlreadyExists (rr_room_number data) /\ st' = st)
         /\ (od_mem (rr_room_number data) (rooms fl) = false ->
             available < rr_capacity data ->
             r = FloorHasCapacity (rr_floor_number data) available /\ st' = st)
         /\ (r = RoomAdded
             <-> od_mem (rr_room_number data) (rooms fl) = false
                 /\ rr_capacity data <= available)).
Proof.
  intros Hreach st' r. subst st' r. split.
  - intros k fl Hin.
    pose proof (reachable_floors_within_capacity _
                  (reach_step (AddRoom data) st Hreach)) as Hinv.
    destruct (Hinv k fl Hin) as [H100 Hle]. split; [exact H100 | lia].
  - intros fl Hg available. subst available.
    rewrite (add_room_cases _ _ _ Hg), calculate_available_capacity_total.
    destruct (od_mem _ (rooms fl)) eqn:Hmem.
    + repeat split; try discriminate; intros [? ?]; discriminate.
    + destruct (_ <? _) eqn:Hcap.
      * apply Z.ltb_lt in Hcap.
        repeat split; try discriminate. intros [_ Hle]. simpl. lia.
      * apply Z.ltb_ge in Hcap. simpl.
        repeat split; try discriminate; try lia.
Qed.

Lemma add_room_within_capacity_witness :
  add_room (mkroom_request 0 102 81) one_room_store
  = (one_room_store, FloorHasCapacity 0 80)
  /\ snd (add_room (mkroom_request 0 102 80) one_room_store) = RoomAdded
  /\ forall k fl,
       In (k, fl) (all_floors (fst (add_room (mkroom_request 0 102 80)
                                             one_room_store))) ->
       floor_capacity fl = 100 /\ total_capacity (rooms fl) <= 100.
Proof.
  assert (Hreach : reachable one_room_store)
    by (apply reachable_run; constructor).
  pose proof (add_room_within_capacity one_room_store (mkroom_request 0 102 81)
                Hreach) as (_ & Hrej).
  pose proof (add_room_within_capacity one_room_store (mkroom_request 0 102 80)
                Hreach) as (Hinv & Hacc).
  specialize (Hrej (mkfloor 0 100 [(101, mkroom 101 20 0 None)]) eq_refl).
  specialize (Hacc (mkfloor 0 100 [(101, mkroom 101 20 0 None)]) eq_refl).
  cbv zeta in Hrej, Hacc.
  destruct Hrej as (_ & Hrej & _). destruct Hacc as (_ & _ & Hacc).
  split; [|split].
  - destruct (Hrej eq_refl ltac:(vm_compute; reflexivity)) as [Hr Hs].
    rewrite (surjective_pairing (add_room _ _)). rewrite Hr, Hs. reflexivity.
  - apply Hacc. split; [reflexivity | vm_compute; discriminate].
  - exact Hinv.
Defined.

(** ** Creating a booking *)

(** [add_boooking] written out as the decision list it runs through. *)
Lemma add_boooking_unfold now uuid data st :
  add_boooking now uuid data st
  = let st1 := after_reset now st in
    match br_start_time data with
    | Raise ex => (st1, Caught ex)
    | Ret start_t =>
    match br_end_time data with
    | Raise ex => (st1, Caught ex)
    | Ret end_t =>
    let org_name := lower (br_organization data) in
    if off_the_hour start_t end_t then (st1, HourlySlotsOnly) else
    match od_get (br_floor_number data) (all_floors st) with
    | None => (st1, FloorNotAdded (br_floor_number data))
    | Some fl =>
    if od_mem (br_room_number data) (rooms fl) then
      match od_get org_name (all_orgs st) with
      | None => (st1, Caught (KeyError org_name))
      | Some org =>
      match org !! "users" with
      | None => (st1, Caught (KeyError "users"))
      | Some (VUsers d) =>
          if bool_decide (booker_email (br_booked_by data) ∈ od_keys d) then
            let duration := booking_duration start_t end_t in
            let st2 := after_quota now org_name duration st in
            if 30 <? default 0 (organization_booking_hours st1 !! org_name)
                     + duration
            then (st2, MonthlyLimitReached)
            else if is_room_available (all_bookings st) (br_floor_number data)
                                      (br_room_number data) start_t end_t
            then
              let new_booking :=
                define_booking uuid (br_floor_number data) (br_room_number data)
                               (br_organization data) (br_booked_by data)
                               start_t end_t in
              (with_bookings (od_set uuid new_booking (all_bookings st)) st2,
               Booked new_booking)
            else (st2, AlreadyBooked)
          else (st1, NoSuchUser)
      | Some _ => (st1, Caught AttributeError)
      end
      end
    else (st1, RoomNotAdded (br_room_number data))
    end
    end
    end.
Proof.
  unfold add_boooking, after_quota, after_reset. unfold_handler.
  cbv zeta.
  destruct (br_start_time data) as [start_t|ex]; [|reflexivity].
  destruct (br_end_time data) as [end_t|ex]; [|reflexivity].
  destruct (off_the_hour start_t end_t); [reflexivity|].
  cbn [all_floors all_orgs all_bookings organization_booking_hours with_hours].
  unfold od_mem at 1.
  destruct (od_get (br_floor_number data) (all_floors st)) as [fl|]; [|reflexivity].
  cbn [negb]. destruct (od_mem (br_room_number data) (rooms fl)); [|reflexivity].
  cbn [negb]. destruct (od_get _ (all_orgs st)) as [org|]; [|reflexivity].
  destruct (org !! "users") as [[s|d|l]|]; try reflexivity.
  cbn [keys_of]. destruct (bool_decide _); [|reflexivity].
  cbn [negb all_floors all_orgs all_bookings organization_booking_hours with_hours].
  set (hours := reset_monthly_booking_hours now (organization_booking_hours st)).
  set (org_name := lower (br_organization data)).
  destruct (hours !! org_name) as [h|] eqn:Hh;
    rewrite lookup_insert_eq; cbn [default];
    destruct (30 <? _); try reflexivity;
    destruct (is_room_available _ _ _ _ _); reflexivity.
Qed.

Lemma reset_monthly_booking_hours_idem now hours :
  reset_monthly_booking_hours now (reset_monthly_booking_hours now hours)
  = reset_monthly_booking_hours now hours.
Proof.
  unfold reset_monthly_booking_hours. destruct (day now =? 1); reflexivity.
Qed.

Lemma after_reset_idem now st :
  after_reset now (after_reset now st) = after_reset now st.
Proof.
  unfold after_reset, with_hours. simpl.
  now rewrite reset_monthly_booking_hours_idem.
Qed.

(** C9. [reset_monthly_booking_hours] empties the tracker when the current
    day of the month is 1 and leaves it alone on any other day; doing it
    twice is doing it once.  [add_boooking] does it first: the call behaves
    as on the store already reset, the tracker it leaves is the reset
    tracker, with at most the entry of the requesting organization
    rewritten, and a request refused at the very first validation (a start
    time that does not parse) leaves exactly the reset tracker. *)
Theorem reset_monthly_booking_hours_first :
  (forall now hours,
      (day now = 1 -> reset_monthly_booking_hours now hours = ∅)
      /\ (day now <> 1 -> reset_monthly_booking_hours now hours = hours))
  /\ (forall now hours,
         reset_monthly_booking_hours now (reset_monthly_booking_hours now hours)
         = reset_monthly_booking_hours now hours)
  /\ (forall now uuid data st,
         add_boooking now uuid data st
         = add_boooking now uuid data (after_reset now st))
  /\ (forall now uuid data st,
         let left := organization_booking_hours (fst (add_boooking now uuid data st)) in
         let reset :=
           reset_monthly_booking_hours now (organization_booking_hours st) in
         left = reset
         \/ exists total, left = <[lower (br_organization data) := total]> reset)
  /\ (forall now uuid floor_number room_number org who ex end_t st,
         add_boooking now uuid
           (mkbooking_request floor_number room_number org who (Raise ex) end_t) st
         = (with_hours
              (reset_monthly_booking_hours now (organization_booking_hours st)) st,
            Caught ex)).
Proof.
  split; [|split; [|split; [|split]]].
  - intros now hours. unfold reset_monthly_booking_hours. split.
    + intros ->. reflexivity.
    + intros Hne. apply Z.eqb_neq in Hne. now rewrite Hne.
  - apply reset_monthly_booking_hours_idem.
  - intros now uuid data st. rewrite !add_boooking_unfold.
    unfold after_quota. rewrite after_reset_idem. reflexivity.
  - intros now uuid data st. rewrite add_boooking_unfold. cbv zeta.
    unfold after_quota, after_reset.
    case_all; try (left; reflexivity); right; eexists; reflexivity.
  - intros. rewrite add_boooking_unfold. reflexivity.
Qed.

(** C4. Once the times are whole hours, the floor and the room exist and
    the booker is a user of the organization, [add_boooking] adds the
    duration of the slot, in hours, to the hours accumulated by the
    organization (0 when it has none) and stores the sum; it answers
    "monthly limit reached" exactly when the sum is above 30, so a sum of
    exactly 30 passes; and when it then answers "already booked" the stored
    sum stays and no booking is added. *)
Theorem add_boooking_quota now uuid data st start_t end_t fl org d :
  br_start_time data = Ret start_t ->
  br_end_time data = Ret end_t ->
  off_the_hour start_t end_t = false ->
  od_get (br_floor_number data) (all_floors st) = Some fl ->
  od_mem (br_room_number data) (rooms fl) = true ->
  od_get (lower (br_organization data)) (all_orgs st) = Some org ->
  org !! "users" = Some (VUsers d) ->
  booker_email (br_booked_by data) ∈ od_keys d ->
  let org_name := lower (br_organization data) in
  let hours :=
    reset_monthly_booking_hours now (organization_booking_hours st) in
  let accumulated := default 0 (hours !! org_name) in
  let duration := booking_duration start_t end_t in
  let available :=
    is_room_available (all_bookings st) (br_floor_number data)
                      (br_room_number data) start_t end_t in
  let st' := fst (add_boooking now uuid data st) in
  let r := snd (add_boooking now uuid data st) in
  organization_booking_hours st' = <[org_name := accumulated + duration]> hours
  /\ (microsecond start_t = 0 -> microsecond end_t = 0 ->
      dt_diff end_t start_t = duration * (3600 * us_per_second))
  /\ (r = MonthlyLimitReached <-> 30 < accumulated + duration)
  /\ (accumulated + duration = 30 -> r <> MonthlyLimitReached)
  /\ (accumulated + duration <= 30 -> available = false ->
      r = AlreadyBooked
      /\ organization_booking_hours st' !! org_name
         = Some (accumulated + duration)
      /\ all_bookings st' = all_bookings st)
  /\ (accumulated + duration <= 30 -> available = true ->
      exists b, r = Booked b /\ od_get uuid (all_bookings st') = Some b).
Proof.
  intros Hs He Hoff Hfl Hroom Horg Husers Hin.
  intros org_name hours accumulated duration available st' r.
  subst st' r available duration accumulated hours org_name.
  rewrite add_boooking_unfold. cbv zeta.
  rewrite Hs, He, Hoff, Hfl, Hroom, Horg, Husers.
  rewrite (bool_decide_eq_true_2 _ Hin).
  unfold after_quota, after_reset.
  cbn [organization_booking_hours with_hours].
  set (org_name := lower (br_organization data)).
  set (hours := reset_monthly_booking_hours now (organization_booking_hours st)).
  set (accumulated := default 0 (hours !! org_name)).
  set (duration := booking_duration start_t end_t).
  set (available := is_room_available _ _ _ _ _).
  destruct (30 <? accumulated + duration) eqn:Hlim.
  - apply Z.ltb_lt in Hlim. cbn [fst snd organization_booking_hours with_hours].
    split; [reflexivity|]. split; [now apply booking_duration_exact|].
    split; [tauto|]. repeat split; intros; lia.
  - apply Z.ltb_ge in Hlim. destruct available eqn:Hav;
      cbn [fst snd organization_booking_hours with_hours with_bookings all_bookings];
      (split; [reflexivity|]); (split; [now apply booking_duration_exact|]).
    + split; [split; [discriminate | lia]|]. split; [discriminate|].
      split; [discriminate|]. intros _ _. eexists. split; [reflexivity|].
      apply od_get_set_eq.
    + split; [split; [discriminate | lia]|]. split; [discriminate|].
      split; [|discriminate]. intros _ _. split; [reflexivity|].
      split; [apply lookup_insert_eq | reflexivity].
Qed.

Lemma add_boooking_quota_witness :
  snd (add_boooking (mkdt 2024 2 20 12 0 0 0) "b-2" nine_to_ten busy_store)
  = AlreadyBooked
  /\ organization_booking_hours
       (fst (add_boooking (mkdt 2024 2 20 12 0 0 0) "b-2" nine_to_ten busy_store))
     !! "acme" = Some 30.
Proof.
  pose proof (add_boooking_quota (mkdt 2024 2 20 12 0 0 0) "b-2" nine_to_ten
                busy_store (mkdt 2024 3 1 9 0 0 0) (mkdt 2024 3 1 10 0 0 0)
                (mkfloor 0 100 [(101, mkroom 101 20 0 None)])
                {[ "org_name" := VStr "acme";
                   "org_email" := VStr "a@x.com";
                   "users" := VUsers [("u1@acme.com", acme_user)] ]}
                [("u1@acme.com", acme_user)]
                eq_refl eq_refl eq_refl eq_refl eq_refl eq_refl eq_refl
                ltac:(constructor)) as H.
  cbv zeta in H. destruct H as (_ & _ & _ & _ & Hbusy & _).
  destruct (Hbusy ltac:(vm_compute; discriminate) eq_refl) as (Hr & Hh & _).
  split; [exact Hr | exact Hh].
Defined.

(** X22. For a request whose two times parse, [add_boooking] checks whole
    hours, then the floor, then the room on that floor, and answers with
    the first of these that fails.  On a store where the organization
    named holds a ["users"] dictionary it goes on, in this order, with the
    booker among the keys of that dictionary, the 30 hours and the
    availability of the room, again answering with the first that fails,
    and with the booking when none does. *)
Theorem add_boooking_validation_order now uuid data st start_t end_t :
  br_start_time data = Ret start_t ->
  br_end_time data = Ret end_t ->
  let r := snd (add_boooking now uuid data st) in
  let org_name := lower (br_organization data) in
  (off_the_hour start_t end_t = true -> r = HourlySlotsOnly)
  /\ (off_the_hour start_t end_t = false ->
      (od_get (br_floor_number data) (all_floors st) = None ->
       r = FloorNotAdded (br_floor_number data))
      /\ forall fl,
          od_get (br_floor_number data) (all_floors st) = Some fl ->
          (od_mem (br_room_number data) (rooms fl) = false ->
           r = RoomNotAdded (br_room_number data))
          /\ (od_mem (br_room_number data) (rooms fl) = true ->
              forall org d,
                od_get org_name (all_orgs st) = Some org ->
                org !! "users" = Some (VUsers d) ->
                (booker_email (br_booked_by data) ∉ od_keys d -> r = NoSuchUser)
                /\ (booker_email (br_booked_by data) ∈ od_keys d ->
                    let total :=
                      default 0 (reset_monthly_booking_hours now
                                   (organization_booking_hours st) !! org_name)
                      + booking_duration start_t end_t in
                    (30 < total -> r = MonthlyLimitReached)
                    /\ (total <= 30 ->
                        (is_room_available (all_bookings st)
                           (br_floor_number data) (br_room_number data)
                           start_t end_t = false -> r = AlreadyBooked)
                        /\ (is_room_available (all_bookings st)
                              (br_floor_number data) (br_room_number data)
                              start_t end_t = true ->
                            r = Booked
                                  (define_booking uuid (br_floor_number data)
                                     (br_room_number data) (br_organization data)
                                     (br_booked_by data) start_t end_t)))))).
Proof.
  intros Hs He r org_name. subst r org_name.
  rewrite add_boooking_unfold. cbv zeta. rewrite Hs, He. split.
  - intros ->. reflexivity.
  - intros ->. split.
    + intros ->. reflexivity.
    + intros fl ->. split.
      * intros ->. reflexivity.
      * intros -> org d -> ->. split.
        -- intros Hnin. now rewrite (bool_decide_eq_false_2 _ Hnin).
        -- intros Hin. rewrite (bool_decide_eq_true_2 _ Hin).
           unfold after_reset. cbn [organization_booking_hours with_hours].
           split.
           ++ intros Hlim. apply Z.ltb_lt in Hlim. now rewrite Hlim.
           ++ intros Hlim. apply Z.ltb_ge in Hlim. rewrite Hlim.
              split; intros ->; reflexivity.
Qed.

Lemma add_boooking_validation_order_witness :
  snd (add_boooking (mkdt 2024 2 20 12 0 0 0) "b-2" off_hour_no_floor busy_store)
  = HourlySlotsOnly
  /\ snd (add_boooking (mkdt 2024 2 20 12 0 0 0) "b-2" no_floor_no_room busy_store)
     = FloorNotAdded 5
  /\ snd (add_boooking (mkdt 2024 2 20 12 0 0 0) "b-2" nine_to_ten_stranger
                       busy_store)
     = NoSuchUser
  /\ snd (add_boooking (mkdt 2024 2 20 12 0 0 0) "b-2" nine_to_ten busy_store)
     = AlreadyBooked.
Proof.
  split; [|split; [|split]].
  - exact (proj1 (add_boooking_validation_order (mkdt 2024 2 20 12 0 0 0) "b-2"
                    off_hour_no_floor busy_store _ _ eq_refl eq_refl) eq_refl).
  - exact (proj1 (proj2 (add_boooking_validation_order (mkdt 2024 2 20 12 0 0 0)
                           "b-2" no_floor_no_room busy_store _ _ eq_refl eq_refl)
                        eq_refl) eq_refl).
  - pose proof (add_boooking_validation_order (mkdt 2024 2 20 12 0 0 0) "b-2"
                  nine_to_ten_stranger busy_store _ _ eq_refl eq_refl)
      as [_ Hrest].
    destruct (Hrest eq_refl) as [_ Hfloor].
    destruct (Hfloor _ eq_refl) as [_ Hroom].
    destruct (Hroom eq_refl _ _ eq_refl eq_refl) as [Hstranger _].
    apply Hstranger. intros Hin. apply list_elem_of_In in Hin.
    destruct Hin as [Hin|[]]. discriminate Hin.
  - pose proof (add_boooking_validation_order (mkdt 2024 2 20 12 0 0 0) "b-2"
                  nine_to_ten busy_store _ _ eq_refl eq_refl)
      as [_ Hrest].
    destruct (Hrest eq_refl) as [_ Hfloor].
    destruct (Hfloor _ eq_refl) as [_ Hroom].
    destruct (Hroom eq_refl _ _ eq_refl eq_refl) as [_ Hknown].
    destruct (Hknown ltac:(constructor)) as [_ Hquota].
    destruct (Hquota ltac:(vm_compute; discriminate)) as [Hbusy _].
    exact (Hbusy eq_refl).
Defined.

(** C8. The user check of [add_boooking] on the store of the scenario
    (floor 0, room 101, organization "acme", reached by three successful
    calls): a whole-hour request for that floor, room and organization,
    whose first failing check is the one that looks the booker up, is not
    answered "no such user found"; the lookup of ["users"] raises and the
    [except] clause answers with the [KeyError].  The three checks before
    it do answer with their own error, in their order. *)
Theorem add_boooking_user_check_raises :
  snd (run scenario_setup empty_store)
  = [FloorAdded; RoomAdded; OrganizationAdded]
  /\ add_boooking scenario_now "b-1" nine_to_ten scenario_store
     = (scenario_store, Caught (KeyError "users"))
  /\ snd (add_boooking scenario_now "b-1" nine_to_ten scenario_store)
     <> NoSuchUser
  /\ snd (add_boooking scenario_now "b-1" half_past_nine scenario_store)
     = HourlySlotsOnly
  /\ snd (add_boooking scenario_now "b-1" no_floor_no_room scenario_store)
     = FloorNotAdded 5
  /\ snd (add_boooking scenario_now "b-1" nine_to_ten_no_room scenario_store)
     = RoomNotAdded 7.
Proof.
  split; [reflexivity|]. split; [reflexivity|].
  split; [vm_compute; discriminate|].
  split; [reflexivity|]. split; reflexivity.
Qed.

(** ** Organizations as [define_organization] builds them *)

Lemma define_organization_without_users org_name org_email :
  org_without_users (define_organization org_name org_email).
Proof. split; reflexivity. Qed.

Lemma after_reset_empty now st :
  organization_booking_hours st = ∅ -> after_reset now st = st.
Proof.
  destruct st as [b f o h]. unfold after_reset, with_hours. simpl.
  intros ->. unfold reset_monthly_booking_hours.
  destruct (day now =? 1); reflexivity.
Qed.

(** The handlers that touch neither organizations, bookings nor hours. *)
Lemma step_rest_unchanged o st :
  match o with
  | AddOrg _ _ | GetOrg _ | AddUser _ | AddBooking _ _ _ | DelBooking _ _ _ => False
  | _ => True
  end ->
  all_orgs (fst (step o st)) = all_orgs st
  /\ all_bookings (fst (step o st)) = all_bookings st
  /\ organization_booking_hours (fst (step o st)) = organization_booking_hours st.
Proof.
  destruct o; intros Ho; try contradiction; simpl;
    [ unfold add_floor | unfold get_floors | unfold get_floor | unfold add_room
    | unfold get_rooms | unfold search_rooms | unfold get_orgs
    | unfold get_users | unfold get_user | unfold get_bookings
    | unfold get_booking ];
    unfold_handler; case_all; auto.
Qed.

Lemma add_org_cases org_name org_email st :
  add_org org_name org_email st
  = if od_mem (lower org_name) (all_orgs st)
    then (st, OrganizationExists)
    else (with_orgs
            (od_set (lower org_name)
                    (define_organization (lower org_name) org_email)
                    (all_orgs st)) st,
          OrganizationAdded).
Proof.
  unfold add_org. unfold_handler. cbv zeta.
  destruct (od_mem _ _); reflexivity.
Qed.

Lemma get_org_without_users org_name st :
  no_users_no_bookings st ->
  exists e, get_org org_name st = (st, Uncaught e).
Proof.
  intros (Horgs & _ & _). unfold get_org. unfold_handler.
  destruct (od_get (lower org_name) (all_orgs st)) as [org|] eqn:Hg.
  - destruct (Horgs _ _ (od_get_In _ _ _ Hg)) as [Hu _]. rewrite Hu. eauto.
  - eauto.
Qed.

Lemma add_user_without_users data st :
  no_users_no_bookings st ->
  add_user data st
  = if od_mem (ur_organization data) (all_orgs st)
    then (st, Caught (KeyError "users"))
    else (st, OrganizationNotAdded (ur_organization data)).
Proof.
  intros (Horgs & _ & _). unfold add_user, od_mem. unfold_handler. cbv zeta.
  destruct (od_get (ur_organization data) (all_orgs st)) as [org|] eqn:Hg;
    [|reflexivity].
  simpl. destruct (Horgs _ _ (od_get_In _ _ _ Hg)) as [Hu _]. now rewrite Hu.
Qed.

(** What [add_boooking] answers while no organization has users: the store
    stays, and the answer comes from one of the first three checks or from
    an exception. *)
Lemma add_boooking_without_users now uuid data st :
  no_users_no_bookings st ->
  add_boooking now uuid data st
  = (st,
     match br_start_time data with
     | Raise ex => Caught ex
     | Ret start_t =>
     match br_end_time data with
     | Raise ex => Caught ex
     | Ret end_t =>
     if off_the_hour start_t end_t then HourlySlotsOnly else
     match od_get (br_floor_number data) (all_floors st) with
     | None => FloorNotAdded (br_floor_number data)
     | Some fl =>
     if od_mem (br_room_number data) (rooms fl) then
       match od_get (lower (br_organization data)) (all_orgs st) with
       | None => Caught (KeyError (lower (br_organization data)))
       | Some _ => Caught (KeyError "users")
       end
     else RoomNotAdded (br_room_number data)
     end
     end
     end).
Proof.
  intros (Horgs & _ & Hh). rewrite add_boooking_unfold. cbv zeta.
  rewrite (after_reset_empty _ _ Hh).
  destruct (br_start_time data) as [start_t|ex]; [|reflexivity].
  destruct (br_end_time data) as [end_t|ex]; [|reflexivity].
  destruct (off_the_hour start_t end_t); [reflexivity|].
  destruct (od_get (br_floor_number data) (all_floors st)) as [fl|]; [|reflexivity].
  destruct (od_mem (br_room_number data) (rooms fl)); [|reflexivity].
  destruct (od_get _ (all_orgs st)) as [org|] eqn:Hg; [|reflexivity].
  destruct (Horgs _ _ (od_get_In _ _ _ Hg)) as [Hu _]. now rewrite Hu.
Qed.

Lemma del_booking_without_bookings now org_name id st :
  no_users_no_bookings st ->
  del_booking now org_name id st = (st, BookingNotFound).
Proof.
  intros (_ & Hb & _). apply del_booking_missing. now rewrite Hb.
Qed.

Lemma step_no_users_no_bookings o st :
  no_users_no_bookings st -> no_users_no_bookings (fst (step o st)).
Proof.
  intros Hinv.
  destruct o as [ | |n|rdata|now|f c s e|org_name org_email| |org_name|data
                |org_name|org_name e|now uuid data|org_name|org_name id
                |now org_name id];
    try (match goal with
         | |- no_users_no_bookings (fst (step ?o st)) =>
             destruct (step_rest_unchanged o st I) as (Ho & Hb & Hh)
         end;
         destruct Hinv as (Horgs & Hbs & Hhs);
         unfold no_users_no_bookings; rewrite Ho, Hb, Hh; now auto).
  - change (no_users_no_bookings (fst (add_org org_name org_email st))).
    rewrite add_org_cases. destruct (od_mem _ _); [exact Hinv|].
    destruct Hinv as (Horgs & Hbs & Hhs). split; [|split; assumption].
    intros k org Hin. simpl in Hin. apply od_set_In in Hin as [[-> ->]|Hin].
    + apply define_organization_without_users.
    + now apply (Horgs k).
  - change (no_users_no_bookings (fst (get_org org_name st))).
    destruct (get_org_without_users org_name st Hinv) as [e ->]. exact Hinv.
  - change (no_users_no_bookings (fst (add_user data st))).
    rewrite (add_user_without_users _ _ Hinv).
    destruct (od_mem _ _); exact Hinv.
  - change (no_users_no_bookings (fst (add_boooking now uuid data st))).
    rewrite (add_boooking_without_users _ _ _ _ Hinv). exact Hinv.
  - change (no_users_no_bookings (fst (del_booking now org_name id st))).
    rewrite (del_booking_without_bookings _ _ _ _ Hinv). exact Hinv.
Qed.

Lemma reachable_no_users_no_bookings st :
  reachable st -> no_users_no_bookings st.
Proof.
  induction 1 as [|o st Hr IH].
  - split; [intros k org [] | split; reflexivity].
  - now apply step_no_users_no_bookings.
Qed.

(** Not every [add_boooking] call for a registered organization ends in the
    [except] clause: one with a start time off the hour is answered
    "hourly slots only". *)
Lemma add_boooking_not_always_caught :
  ~ (forall st now uuid data,
        reachable st ->
        od_mem (lower (br_organization data)) (all_orgs st) = true ->
        exists ex, snd (add_boooking now uuid data st) = Caught ex).
Proof.
  intros H.
  destruct (H acme_store (mkdt 2024 2 20 12 0 0 0) "b-1" half_past_nine
              ltac:(apply reachable_run; constructor) eq_refl) as [ex Hex].
  vm_compute in Hex. discriminate Hex.
Qed.

(** C2.  In every store the handlers can produce, no organization has a
    ["users"] key (it has an empty ["limitusers"]), and there is no booking
    and no accumulated hour.  [add_user] for a registered organization
    ends in the [except] clause with [KeyError: 'users'].  [add_boooking]
    never books and leaves the store as it was, and its answer is that of
    the first step that fails: the [except] clause for a time that does
    not parse, else "hourly slots only" for a time off the hour, else
    "floor not added" for a missing floor, else "room not added" for a room
    missing on that floor, and otherwise the [except] clause with a
    [KeyError], which is [KeyError: 'users'] whenever the organization
    named is registered. *)
Theorem organizations_never_get_users st :
  reachable st ->
  (forall k org, In (k, org) (all_orgs st) ->
                 org !! "users" = None /\ org !! "limitusers" = Some (VUsers []))
  /\ all_bookings st = []
  /\ organization_booking_hours st = ∅
  /\ (forall data,
         od_mem (ur_organization data) (all_orgs st) = true ->
         add_user data st = (st, Caught (KeyError "users")))
  /\ (forall now uuid data,
         let r := snd (add_boooking now uuid data st) in
         fst (add_boooking now uuid data st) = st
         /\ (forall b, r <> Booked b)
         /\ (forall ex, br_start_time data = Raise ex -> r = Caught ex)
         /\ (forall start_t ex,
                br_start_time data = Ret start_t ->
                br_end_time data = Raise ex -> r = Caught ex)
         /\ (forall start_t end_t,
                br_start_time data = Ret start_t ->
                br_end_time data = Ret end_t ->
                (off_the_hour start_t end_t = true -> r = HourlySlotsOnly)
                /\ (off_the_hour start_t end_t = false ->
                    (od_get (br_floor_number data) (all_floors st) = None ->
                     r = FloorNotAdded (br_floor_number data))
                    /\ forall fl,
                        od_get (br_floor_number data) (all_floors st) = Some fl ->
                        (od_mem (br_room_number data) (rooms fl) = false ->
                         r = RoomNotAdded (br_room_number data))
                        /\ (od_mem (br_room_number data) (rooms fl) = true ->
                            (exists key, r = Caught (KeyError key))
                            /\ (od_mem (lower (br_organization data))
                                       (all_orgs st) = true ->
                                r = Caught (KeyError "users")))))).
Proof.
  intros Hreach.
  pose proof (reachable_no_users_no_bookings st Hreach) as Hinv.
  destruct Hinv as (Horgs & Hbs & Hhs).
  assert (Hinv : no_users_no_bookings st) by (split; [|split]; assumption).
  split; [exact Horgs|]. split; [exact Hbs|]. split; [exact Hhs|]. split.
  - intros data Hmem. rewrite (add_user_without_users _ _ Hinv).
    now rewrite Hmem.
  - intros now uuid data r. subst r.
    rewrite (add_boooking_without_users _ _ _ _ Hinv).
    cbn [fst snd]. split; [reflexivity|]. split; [|split; [|split]].
    + intros b. case_all; discriminate.
    + intros ex ->. reflexivity.
    + intros start_t ex -> ->. reflexivity.
    + intros start_t end_t -> ->. split.
      * intros ->. reflexivity.
      * intros ->. split.
        -- intros ->. reflexivity.
        -- intros fl ->. split.
           ++ intros ->. reflexivity.
           ++ intros ->. split.
              ** destruct (od_get _ (all_orgs st)); eauto.
              ** intros Hmem. apply od_mem_true in Hmem as [org ->]. reflexivity.
Qed.

Lemma organizations_never_get_users_witness :
  add_user user_one acme_store = (acme_store, Caught (KeyError "users"))
  /\ all_bookings
       (fst (add_boooking (mkdt 2024 2 20 12 0 0 0) "b-1" nine_to_ten acme_store))
     = [].
Proof.
  pose proof (organizations_never_get_users acme_store
                ltac:(apply reachable_run; constructor))
    as (_ & Hbs & _ & Huser & Hbook).
  split.
  - exact (Huser user_one eq_refl).
  - destruct (Hbook (mkdt 2024 2 20 12 0 0 0) "b-1" nine_to_ten) as (-> & _).
    exact Hbs.
Defined.

(** ** The scenario: floor, room, organization, user, two bookings *)

(** The scenario does not go through as a run of successes closed by an
    "already booked": the user is not added, the first booking is not
    made, and the second request is turned down for its half hours. *)
Lemma scenario_does_not_succeed :
  snd (run scenario empty_store)
  = [FloorAdded; RoomAdded; OrganizationAdded;
     Caught (KeyError "users"); Caught (KeyError "users"); HourlySlotsOnly]
  /\ ~ (exists b,
           snd (run scenario empty_store)
           = [FloorAdded; RoomAdded; OrganizationAdded; UserAdded;
              Booked b; AlreadyBooked]).
Proof.
  split; [reflexivity|]. intros [b Hb]. vm_compute in Hb. discriminate Hb.
Qed.

(** C1.  From the empty store, adding a floor,
    room 101 of capacity 20 on floor 0 and organization "acme" all succeed
    and leave floor 0 with that room and the organization registered.  A
    booking request from 09:30 to 10:30 is answered "hourly slots only" in
    any store, whatever is booked, and changes no booking. *)
Theorem scenario_setup_and_half_hour_request :
  snd (run scenario_setup empty_store)
  = [FloorAdded; RoomAdded; OrganizationAdded]
  /\ all_floors (fst (run scenario_setup empty_store))
     = [(0, mkfloor 0 100 [(101, mkroom 101 20 0 None)])]
  /\ od_keys (all_orgs (fst (run scenario_setup empty_store))) = ["acme"]
  /\ (forall st now uuid,
         snd (add_boooking now uuid half_past_nine st) = HourlySlotsOnly
         /\ all_bookings (fst (add_boooking now uuid half_past_nine st))
            = all_bookings st).
Proof.
  split; [reflexivity|]. split; [reflexivity|]. split; [reflexivity|].
  intros st now uuid. rewrite add_boooking_unfold. split; reflexivity.
Qed.

(** * Further properties of the handlers *)

(** ** More on ordered dictionaries *)

Section odict_more.
Context {K V : Type} `{EqDecision K}.
Implicit Types (d : odict K V) (k : K) (v : V).

Lemma od_get_Some_keys k d : (exists v, od_get k d = Some v) <-> In k (od_keys d).
Proof.
  destruct (od_get k d) as [v|] eqn:Hg.
  - split; [|eauto]. intros _. apply od_get_In in Hg.
    change k with (fst (k, v)). now apply in_map.
  - split; [intros [v Hv]; discriminate|].
    intros Hi. apply od_get_None_keys in Hg. contradiction.
Qed.

Lemma od_set_new k v d : od_get k d = None -> od_set k v d = d ++ [(k, v)].
Proof.
  induction d as [|[k' v'] d IH]; simpl; [reflexivity|].
  destruct (decide (k = k')); [discriminate|].
  intros Hg. now rewrite IH.
Qed.

Lemma od_keys_set_old k v d :
  od_mem k d = true -> od_keys (od_set k v d) = od_keys d.
Proof.
  unfold od_mem, od_keys. induction d as [|[k' v'] d IH]; simpl; [discriminate|].
  destruct (decide (k = k')) as [->|Hne]; simpl; [reflexivity|].
  intros Hm. now rewrite IH.
Qed.

Lemma od_keys_set_incl k v d : incl (od_keys d) (od_keys (od_set k v d)).
Proof.
  unfold od_keys. induction d as [|[k' v'] d IH]; simpl.
  - intros x [].
  - destruct (decide (k = k')) as [->|Hne]; simpl.
    + apply incl_refl.
    + intros x [<-|Hx]; [now left | right; now apply IH].
Qed.

Lemma od_get_In_NoDup k v d :
  List.NoDup (od_keys d) -> In (k, v) d -> od_get k d = Some v.
Proof.
  induction d as [|[k' v'] d IH]; simpl; [intros _ []|].
  intros Hnd. apply NoDup_cons_iff in Hnd as [Hni Hnd].
  intros [[= -> ->]|Hin].
  - destruct (decide (k = k)); congruence.
  - destruct (decide (k = k')) as [->|Hne]; [|now apply IH].
    exfalso. apply Hni. change k' with (fst (k', v)). now apply in_map.
Qed.

Lemma od_del_set_new k v d : od_get k d = None -> od_del k (od_set k v d) = d.
Proof.
  induction d as [|[k' v'] d IH]; simpl.
  - destruct (decide (k = k)); congruence.
  - destruct (decide (k = k')) as [->|Hne]; [discriminate|].
    intros Hg. simpl. destruct (decide (k = k')); [congruence|]. now rewrite IH.
Qed.
End odict_more.

(** ** Floor numbers *)

Lemma in_numbers k n : In k (map Z.of_nat (seq 0 n)) <-> 0 <= k < Z.of_nat n.
Proof.
  rewrite in_map_iff. split.
  - intros (i & <- & Hi). apply in_seq in Hi. lia.
  - intros Hk. exists (Z.to_nat k). split; [lia|]. apply in_seq. lia.
Qed.

Lemma next_floor_number st :
  floors_numbered st ->
  (if (List.length (all_floors st) =? 0)%nat then 0
   else List.last (od_keys (all_floors st)) 0 + 1)
  = Z.of_nat (List.length (all_floors st)).
Proof.
  intros [Hkeys _]. rewrite Hkeys.
  destruct (List.length (all_floors st)) as [|n]; [reflexivity|].
  cbn [Nat.eqb]. rewrite seq_S, List.map_app. cbn [map Nat.add].
  rewrite last_last. lia.
Qed.

Lemma add_floor_numbered st :
  floors_numbered st ->
  add_floor st
  = (with_floors
       (all_floors st
        ++ [(Z.of_nat (List.length (all_floors st)),
             define_floor (Z.of_nat (List.length (all_floors st))))]) st,
     FloorAdded).
Proof.
  intros Hn. rewrite add_floor_floors, (next_floor_number _ Hn).
  rewrite od_set_new; [reflexivity|].
  apply od_get_None_keys. destruct Hn as [-> _]. rewrite in_numbers. lia.
Qed.

Lemma step_floors_numbered o st :
  floors_numbered st -> floors_numbered (fst (step o st)).
Proof.
  intros Hn.
  destruct o as [ | |n|rdata|now|f c s e|org_name org_email| |org_name|data
                |org_name|org_name e|now uuid data|org_name|org_name id
                |now org_name id];
    try (unfold floors_numbered;
         rewrite step_floors_unchanged by exact I; exact Hn).
  - change (floors_numbered (fst (add_floor st))).
    rewrite (add_floor_numbered _ Hn). destruct Hn as [Hkeys Hnum].
    unfold floors_numbered. cbn [fst all_floors with_floors]. split.
    + unfold od_keys in *. rewrite List.map_app, length_app, Hkeys.
      cbn [map fst List.length]. rewrite Nat.add_1_r, seq_S, List.map_app.
      reflexivity.
    + intros k fl Hin. apply in_app_or in Hin as [Hin|[[= <- <-]|[]]].
      * now apply Hnum.
      * reflexivity.
  - change (floors_numbered (fst (add_room rdata st))).
    destruct (od_get (rr_floor_number rdata) (all_floors st)) as [fl|] eqn:Hg.
    + rewrite (add_room_cases _ _ _ Hg).
      destruct (od_mem _ (rooms fl)); [exact Hn|].
      destruct (_ <? _); [exact Hn|].
      destruct Hn as [Hkeys Hnum]. unfold floors_numbered.
      cbn [fst all_floors with_floors].
      assert (Hmem : od_mem (rr_floor_number rdata) (all_floors st) = true)
        by (apply od_mem_true; eauto).
      split.
      * rewrite (od_keys_set_old _ _ _ Hmem).
        replace (List.length (od_set _ _ (all_floors st)))
          with (List.length (all_floors st)); [exact Hkeys|].
        rewrite <- (length_map fst (od_set _ _ _)), <- (length_map fst (all_floors st)).
        change (List.length (od_keys (all_floors st))
                = List.length (od_keys (od_set (rr_floor_number rdata)
                     (with_rooms
                        (od_set (rr_room_number rdata)
                           (define_room (rr_room_number rdata)
                              (rr_capacity rdata) (rr_floor_number rdata))
                           (rooms fl)) fl) (all_floors st)))).
        now rewrite (od_keys_set_old _ _ _ Hmem).
      * intros k fl' Hin. apply od_set_In in Hin as [[-> ->]|Hin].
        -- simpl. apply Hnum. now apply od_get_In.
        -- now apply Hnum.
    + now rewrite (add_room_no_floor _ _ Hg).
  - change (floors_numbered (fst (get_rooms now st))).
    destruct Hn as [Hkeys Hnum]. unfold floors_numbered, get_rooms.
    unfold list_rooms_with_availability. unfold_handler.
    cbn [fst all_floors with_floors]. split.
    + rewrite length_map. rewrite <- Hkeys. unfold od_keys.
      rewrite List.map_map. apply map_ext. now intros [k fl].
    + intros k fl' Hin. apply in_map_iff in Hin as ([k0 fl] & [= <- <-] & Hin).
      simpl. now apply Hnum.
Qed.

Lemma reachable_floors_numbered st : reachable st -> floors_numbered st.
Proof.
  induction 1 as [|o st Hr IH].
  - split; [reflexivity | intros k fl []].
  - now apply step_floors_numbered.
Qed.

Lemma get_floor_cases k st :
  get_floor k st
  = (st, match od_get k (all_floors st) with
         | Some fl => FloorData fl
         | None => Caught (KeyErrorInt k)
         end).
Proof.
  unfold get_floor. unfold_handler. destruct (od_get k (all_floors st)); reflexivity.
Qed.

(** X1. In every store the handlers can produce the floors are numbered
    0, 1, ..., n-1 in the order of their creation, each stored under its own
    number with capacity 100; [add_floor] always succeeds and appends floor
    n, without rooms; [get_floor k] returns a floor exactly for
    0 <= k < n and ends in the [except] clause with [KeyError] for any
    other k. *)
Theorem floors_are_numbered_in_order st :
  reachable st ->
  let n := List.length (all_floors st) in
  od_keys (all_floors st) = map Z.of_nat (seq 0 n)
  /\ (forall k fl, od_get k (all_floors st) = Some fl ->
                   floor_number fl = k /\ floor_capacity fl = 100)
  /\ add_floor st
     = (with_floors (all_floors st ++ [(Z.of_nat n, mkfloor (Z.of_nat n) 100 [])]) st,
        FloorAdded)
  /\ (forall k, (exists fl, get_floor k st = (st, FloorData fl))
                <-> 0 <= k < Z.of_nat n)
  /\ (forall k, ~ (0 <= k < Z.of_nat n) ->
                get_floor k st = (st, Caught (KeyErrorInt k))).
Proof.
  intros Hreach n. subst n.
  pose proof (reachable_floors_numbered st Hreach) as Hn.
  pose proof (reachable_floors_within_capacity st Hreach) as Hcap.
  assert (Hex : forall k, (exists fl, od_get k (all_floors st) = Some fl)
                          <-> 0 <= k < Z.of_nat (List.length (all_floors st))).
  { intros k. rewrite od_get_Some_keys. destruct Hn as [-> _]. apply in_numbers. }
  split; [apply Hn|]. split; [|split; [|split]].
  - intros k fl Hg. apply od_get_In in Hg. split.
    + now apply (proj2 Hn).
    + now apply (Hcap k fl).
  - now apply add_floor_numbered.
  - intros k. rewrite <- Hex, get_floor_cases. split.
    + intros [fl Heq]. destruct (od_get k (all_floors st)) as [fl'|]; [eauto|].
      discriminate.
    + intros [fl ->]. eauto.
  - intros k Hk. rewrite get_floor_cases.
    destruct (od_get k (all_floors st)) as [fl|] eqn:Hg; [|reflexivity].
    exfalso. apply Hk, Hex. eauto.
Qed.

Lemma floors_are_numbered_in_order_witness :
  od_keys (all_floors two_floors_store) = [0; 1]
  /\ (exists fl, get_floor 1 two_floors_store = (two_floors_store, FloorData fl))
  /\ get_floor 2 two_floors_store = (two_floors_store, Caught (KeyErrorInt 2))
  /\ od_keys (all_floors (fst (add_floor two_floors_store))) = [0; 1; 2].
Proof.
  pose proof (floors_are_numbered_in_order two_floors_store
                ltac:(apply reachable_run; constructor))
    as (Hkeys & _ & Hadd & Hget & Hmiss).
  split; [exact Hkeys|]. split; [|split].
  - apply Hget. simpl. lia.
  - apply Hmiss. simpl. lia.
  - rewrite Hadd. reflexivity.
Defined.

(** ** Adding a room *)

(** X2. When [add_room] answers "room added", the floor existed and did
    not have that room number; afterwards the room is stored on that floor
    under its number with the requested capacity, the other rooms of the
    floor, the other floors, the organizations, bookings and hours are as
    before, the capacity left on the floor has gone down by the room's
    capacity, and asking again for the same room number on that floor is
    refused as "already exists" whatever the capacity. *)
Theorem add_room_stores_the_room data st :
  snd (add_room data st) = RoomAdded ->
  let st' := fst (add_room data st) in
  (exists fl fl',
      od_get (rr_floor_number data) (all_floors st) = Some fl
      /\ od_get (rr_floor_number data) (all_floors st') = Some fl'
      /\ od_get (rr_room_number data) (rooms fl) = None
      /\ od_get (rr_room_number data) (rooms fl')
         = Some (mkroom (rr_room_number data) (rr_capacity data)
                        (rr_floor_number data) None)
      /\ (forall r, r <> rr_room_number data ->
                    od_get r (rooms fl') = od_get r (rooms fl))
      /\ calculate_available_capacity fl'
         = calculate_available_capacity fl - rr_capacity data)
  /\ (forall k, k <> rr_floor_number data ->
                od_get k (all_floors st') = od_get k (all_floors st))
  /\ all_bookings st' = all_bookings st
  /\ all_orgs st' = all_orgs st
  /\ organization_booking_hours st' = organization_booking_hours st
  /\ (forall capacity',
         add_room (mkroom_request (rr_floor_number data) (rr_room_number data)
                                  capacity') st'
         = (st', RoomAlreadyExists (rr_room_number data))).
Proof.
  intros Hr st'. subst st'.
  destruct (od_get (rr_floor_number data) (all_floors st)) as [fl|] eqn:Hg;
    [|rewrite (add_room_no_floor _ _ Hg) in Hr; discriminate].
  rewrite (add_room_cases _ _ _ Hg) in Hr |- *.
  destruct (od_mem _ (rooms fl)) eqn:Hmem; [discriminate|].
  destruct (_ <? _) eqn:Hcap; [discriminate|].
  apply od_mem_false in Hmem.
  cbn [fst all_floors all_bookings all_orgs organization_booking_hours with_floors].
  set (room := define_room _ _ _).
  set (fl' := with_rooms (od_set (rr_room_number data) room (rooms fl)) fl).
  assert (Hg' : od_get (rr_floor_number data)
                  (od_set (rr_floor_number data) fl' (all_floors st)) = Some fl')
    by apply od_get_set_eq.
  split; [|split; [|split; [|split; [|split]]]]; try reflexivity.
  - exists fl, fl'. split; [reflexivity|]. split; [exact Hg'|].
    split; [exact Hmem|]. split; [apply od_get_set_eq|]. split.
    + intros r Hne. apply od_get_set_ne. congruence.
    + rewrite !calculate_available_capacity_total. subst fl'. cbn [rooms with_rooms floor_capacity].
      rewrite (total_capacity_set_new _ _ _ Hmem). subst room. simpl. lia.
  - intros k Hne. apply od_get_set_ne. congruence.
  - intros capacity'.
    rewrite (add_room_cases _ _ fl') by exact Hg'.
    cbn [rr_room_number rr_floor_number rr_capacity].
    replace (od_mem (rr_room_number data) (rooms fl')) with true; [reflexivity|].
    symmetry. apply od_mem_true. eexists. subst fl'. apply od_get_set_eq.
Qed.

Lemma add_room_stores_the_room_witness :
  add_room (mkroom_request 0 102 5)
           (fst (add_room (mkroom_request 0 102 80) one_room_store))
  = (fst (add_room (mkroom_request 0 102 80) one_room_store),
     RoomAlreadyExists 102).
Proof.
  exact (proj2 (proj2 (proj2 (proj2 (proj2
           (add_room_stores_the_room (mkroom_request 0 102 80) one_room_store
              eq_refl))))) 5).
Defined.

(** X3. [add_room] puts no lower bound on the capacity: in every store the
    handlers can produce, a room of capacity zero or less is accepted on
    any existing floor where its number is free. *)
Theorem add_room_accepts_nonpositive_capacity data st fl :
  reachable st ->
  od_get (rr_floor_number data) (all_floors st) = Some fl ->
  od_get (rr_room_number data) (rooms fl) = None ->
  rr_capacity data <= 0 ->
  snd (add_room data st) = RoomAdded
  /\ exists fl',
       od_get (rr_floor_number data) (all_floors (fst (add_room data st)))
       = Some fl'
       /\ calculate_available_capacity fl'
          = calculate_available_capacity fl - rr_capacity data.
Proof.
  intros Hreach Hg Hroom Hcap.
  pose proof (reachable_floors_within_capacity st Hreach _ _ (od_get_In _ _ _ Hg))
    as [H100 Hle].
  rewrite (add_room_cases _ _ _ Hg).
  apply od_mem_false in Hroom. rewrite Hroom.
  rewrite calculate_available_capacity_total.
  replace (_ <? _) with false by (symmetry; apply Z.ltb_ge; lia).
  split; [reflexivity|]. eexists. cbn [fst all_floors with_floors].
  split; [apply od_get_set_eq|].
  rewrite calculate_available_capacity_total. cbn [rooms with_rooms floor_capacity].
  apply od_mem_false in Hroom.
  rewrite (total_capacity_set_new _ _ _ Hroom). simpl. lia.
Qed.

Lemma add_room_accepts_nonpositive_capacity_witness :
  snd (add_room (mkroom_request 0 102 (-50)) one_room_store) = RoomAdded
  /\ exists fl',
       od_get 0 (all_floors (fst (add_room (mkroom_request 0 102 (-50))
                                           one_room_store))) = Some fl'
       /\ calculate_available_capacity fl' = 130.
Proof.
  exact (add_room_accepts_nonpositive_capacity (mkroom_request 0 102 (-50))
           one_room_store (mkfloor 0 100 [(101, mkroom 101 20 0 None)])
           ltac:(apply reachable_run; constructor) eq_refl eq_refl
           ltac:(simpl; lia)).
Defined.

(** ** Organization names *)

Lemma lower_ascii_idem c : lower_ascii (lower_ascii c) = lower_ascii c.
Proof. destruct c as [[] [] [] [] [] [] [] []]; reflexivity. Qed.

Lemma lower_idem s : lower (lower s) = lower s.
Proof.
  induction s as [|c s IH]; simpl; [reflexivity|].
  now rewrite lower_ascii_idem, IH.
Qed.

(** The handlers that leave the organizations alone. *)
Lemma step_orgs_unchanged o st :
  match o with AddOrg _ _ | GetOrg _ | AddUser _ => False | _ => True end ->
  all_orgs (fst (step o st)) = all_orgs st.
Proof.
  destruct o; intros Ho; try contradiction; simpl;
    [ unfold add_floor | unfold get_floors | unfold get_floor | unfold add_room
    | unfold get_rooms | unfold search_rooms | unfold get_orgs
    | unfold get_users | unfold get_user | unfold add_boooking
    | unfold get_bookings | unfold get_booking | unfold del_booking ];
    unfold_handler; case_all; reflexivity.
Qed.

Lemma step_orgs_lowercase o st :
  reachable st -> orgs_lowercase st -> orgs_lowercase (fst (step o st)).
Proof.
  intros Hreach Hl.
  pose proof (reachable_no_users_no_bookings st Hreach) as Hinv.
  destruct o as [ | |n|rdata|now|f c s e|org_name org_email| |org_name|data
                |org_name|org_name e|now uuid data|org_name|org_name id
                |now org_name id];
    try (unfold orgs_lowercase;
         rewrite step_orgs_unchanged by exact I; exact Hl).
  - change (orgs_lowercase (fst (add_org org_name org_email st))).
    rewrite add_org_cases. destruct (od_mem _ _); [exact Hl|].
    intros k org Hin. simpl in Hin. apply od_set_In in Hin as [[-> ->]|Hin].
    + split; [apply lower_idem | reflexivity].
    + now apply Hl.
  - change (orgs_lowercase (fst (get_org org_name st))).
    destruct (get_org_without_users org_name st Hinv) as [ex ->]. exact Hl.
  - change (orgs_lowercase (fst (add_user data st))).
    rewrite (add_user_without_users _ _ Hinv). destruct (od_mem _ _); exact Hl.
Qed.

Lemma reachable_orgs_lowercase st : reachable st -> orgs_lowercase st.
Proof.
  induction 1 as [|o st Hr IH].
  - intros k org [].
  - now apply step_orgs_lowercase.
Qed.

(** X4. For a name made of ASCII characters, [add_org] registers the
    organization under its lowered name, with that name and the given
    email as fields, exactly when no organization is stored under that
    lowered name, and otherwise answers "already exists" and changes
    nothing; once the name is registered, every ASCII spelling that lowers
    to the same string is refused.  Floors, bookings and hours are never
    touched. *)
Theorem add_org_unique_up_to_case org_name org_email st :
  is_ascii org_name = true ->
  let st' := fst (add_org org_name org_email st) in
  let r := snd (add_org org_name org_email st) in
  (r = OrganizationAdded <-> od_get (lower org_name) (all_orgs st) = None)
  /\ (r = OrganizationExists <-> od_get (lower org_name) (all_orgs st) <> None)
  /\ (r = OrganizationExists -> st' = st)
  /\ (r = OrganizationAdded ->
      exists org,
        od_get (lower org_name) (all_orgs st') = Some org
        /\ org !! "org_name" = Some (VStr (lower org_name))
        /\ org !! "org_email" = Some (VStr org_email)
        /\ (forall k, k <> lower org_name ->
                      od_get k (all_orgs st') = od_get k (all_orgs st)))
  /\ (forall other_name other_email,
         is_ascii other_name = true ->
         lower other_name = lower org_name ->
         add_org other_name other_email st' = (st', OrganizationExists))
  /\ all_floors st' = all_floors st
  /\ all_bookings st' = all_bookings st
  /\ organization_booking_hours st' = organization_booking_hours st.
Proof.
  intros Hascii st' r. subst st' r. rewrite add_org_cases. unfold od_mem.
  destruct (od_get (lower org_name) (all_orgs st)) as [org|] eqn:Hg;
    cbn [fst snd all_orgs all_floors all_bookings organization_booking_hours
         with_orgs].
  - split; [split; discriminate|]. split; [split; congruence|].
    split; [reflexivity|]. split; [discriminate|].
    split; [|auto]. intros other_name other_email _ Heq.
    rewrite add_org_cases, Heq. unfold od_mem. now rewrite Hg.
  - split; [split; reflexivity|]. split; [split; [discriminate|congruence]|].
    split; [discriminate|]. split.
    + intros _. eexists. split; [apply od_get_set_eq|].
      split; [reflexivity|]. split; [reflexivity|].
      intros k Hne. apply od_get_set_ne. congruence.
    + split; [|auto]. intros other_name other_email _ Heq.
      rewrite add_org_cases, Heq. unfold od_mem.
      cbn [all_orgs with_orgs]. now rewrite od_get_set_eq.
Qed.

Lemma add_org_unique_up_to_case_witness :
  snd (add_org "Acme" "a@x.com" empty_store) = OrganizationAdded
  /\ od_keys (all_orgs (fst (add_org "Acme" "a@x.com" empty_store))) = ["acme"]
  /\ add_org "ACME" "b@x.com" (fst (add_org "Acme" "a@x.com" empty_store))
     = (fst (add_org "Acme" "a@x.com" empty_store), OrganizationExists).
Proof.
  pose proof (add_org_unique_up_to_case "Acme" "a@x.com" empty_store eq_refl)
    as H.
  cbv zeta in H. destruct H as (Hadd & _ & _ & _ & Hother & _).
  split; [apply Hadd; reflexivity|]. split; [reflexivity|].
  apply Hother; reflexivity.
Defined.

(** X5. In every store the handlers can produce, organizations are stored
    under lower-case names only, and [add_user], which does not lower the
    organization it is given, answers "organization not added" for every
    name with an upper-case letter, registered or not, and changes
    nothing. *)
Theorem add_user_wants_the_lowered_name st data :
  reachable st ->
  lower (ur_organization data) <> ur_organization data ->
  (forall k org, od_get k (all_orgs st) = Some org ->
                 lower k = k /\ org !! "org_name" = Some (VStr k))
  /\ add_user data st = (st, OrganizationNotAdded (ur_organization data)).
Proof.
  intros Hreach Hup.
  pose proof (reachable_orgs_lowercase st Hreach) as Hl.
  pose proof (reachable_no_users_no_bookings st Hreach) as Hinv.
  split.
  - intros k org Hg. apply (Hl k org). now apply od_get_In.
  - rewrite (add_user_without_users _ _ Hinv). unfold od_mem.
    destruct (od_get (ur_organization data) (all_orgs st)) as [org|] eqn:Hg;
      [|reflexivity].
    exfalso. apply Hup. apply (Hl _ org). now apply od_get_In.
Qed.

Lemma add_user_wants_the_lowered_name_witness :
  add_user (mkuser_request "User One" "Acme" "e1" "u1@acme.com" "dev" "all")
           (fst (add_org "Acme" "a@x.com" empty_store))
  = (fst (add_org "Acme" "a@x.com" empty_store), OrganizationNotAdded "Acme").
Proof.
  exact (proj2 (add_user_wants_the_lowered_name
                  (fst (step (AddOrg "Acme" "a@x.com") empty_store))
                  (mkuser_request "User One" "Acme" "e1" "u1@acme.com" "dev" "all")
                  (reach_step _ _ reach_empty)
                  ltac:(vm_compute; discriminate))).
Defined.



(** ** Listing rooms with their availability *)

(** A room is free "right now" unless a booking of it has begun and has
    not ended: both comparisons are strict. *)
Lemma available_right_now bs f r now :
  is_room_available bs f r now now = false
  <-> exists b, In b (od_values bs)
                /\ booking_floor_number b = f /\ booking_room_number b = r
                /\ to_micro (start_time b) < to_micro now < to_micro (end_time b).
Proof.
  unfold is_room_available. rewrite none_clashes_false. split.
  - intros (b & Hin & Hc). apply filter_In in Hin as [Hin Hsame].
    unfold same_room in Hsame. apply andb_true_iff in Hsame as [Hf Hr].
    unfold clashes, dt_ltb in Hc. apply andb_true_iff in Hc as [H1 H2].
    exists b. repeat split; auto; lia.
  - intros (b & Hin & Hf & Hr & H1 & H2). exists b. split.
    + apply filter_In. split; [exact Hin|].
      unfold same_room. rewrite Hf, Hr, !Z.eqb_refl. reflexivity.
    + unfold clashes, dt_ltb. apply andb_true_iff. split; apply Z.ltb_lt; lia.
Qed.

Lemma od_get_map_values {A B} (h : Z -> A -> B) (k : Z) (d : odict Z A) :
  od_get k (map (fun '(k0, v) => (k0, h k0 v)) d) = option_map (h k) (od_get k d).
Proof.
  induction d as [|[k' v] d IH]; [reflexivity|].
  cbn [map od_get]. destruct (decide (k = k')) as [->|]; [reflexivity | exact IH].
Qed.

(** X8. [get_rooms] lists every room of every floor, each with
    ["currently_available"] set and written back into the store (every
    stored room is found again, on its floor and under its number, with
    that mark), and touches nothing else: number, capacity and floor of
    the rooms, number and capacity of the floors, and the organizations,
    bookings and hours stay.  A room is marked unavailable
    exactly when one of its bookings started strictly before the current
    time and ends strictly after it, so at the very instant a booking
    starts its room is still marked available.  Asking again at the same
    time gives the same answer and the same store. *)
Theorem get_rooms_marks_every_room now st :
  let st' := fst (get_rooms now st) in
  (exists l,
      snd (get_rooms now st) = RoomsData l
      /\ (forall f room',
             In (f, room') l
             <-> exists fl r room,
                   In (f, fl) (all_floors st) /\ In (r, room) (rooms fl)
                   /\ room' = mkroom (room_number room) (capacity room)
                                     (room_floor_number room)
                                     (Some (is_room_available (all_bookings st)
                                                              f r now now)))
      /\ List.length l
         = List.length (flat_map (fun kv => rooms (snd kv)) (all_floors st)))
  /\ (forall f r,
         is_room_available (all_bookings st) f r now now = false
         <-> exists b, In b (od_values (all_bookings st))
                       /\ booking_floor_number b = f
                       /\ booking_room_number b = r
                       /\ to_micro (start_time b) < to_micro now
                          < to_micro (end_time b))
  /\ od_keys (all_floors st') = od_keys (all_floors st)
  /\ all_bookings st' = all_bookings st
  /\ all_orgs st' = all_orgs st
  /\ organization_booking_hours st' = organization_booking_hours st
  /\ get_rooms now st' = (st', snd (get_rooms now st))
  /\ (forall f fl,
         od_get f (all_floors st) = Some fl ->
         exists fl',
           od_get f (all_floors st') = Some fl'
           /\ floor_number fl' = floor_number fl
           /\ floor_capacity fl' = floor_capacity fl
           /\ od_keys (rooms fl') = od_keys (rooms fl)
           /\ forall r room,
                od_get r (rooms fl) = Some room ->
                od_get r (rooms fl')
                = Some (mkroom (room_number room) (capacity room)
                               (room_floor_number room)
                               (Some (is_room_available (all_bookings st)
                                                        f r now now))))
  /\ (forall f, od_get f (all_floors st) = None ->
                od_get f (all_floors st') = None).
Proof.
  intros st'. subst st'. unfold get_rooms, list_rooms_with_availability.
  unfold_handler.
  cbn [fst snd all_floors all_bookings all_orgs organization_booking_hours
       with_floors].
  split; [|split; [|split; [|split; [|split; [|split; [|split; [|split]]]]]]];
    try reflexivity.
  - eexists. split; [reflexivity|]. split.
    + intros f room'. rewrite in_flat_map. split.
      * intros ([f0 fl'] & Hin & Hroom).
        apply in_map_iff in Hin as ([f1 fl] & [= <- <-] & Hin).
        apply in_map_iff in Hroom as (room0 & [= <- <-] & Hroom).
        cbn [rooms with_rooms] in Hroom. unfold od_values in Hroom.
        apply in_map_iff in Hroom as ([r0 room1] & <- & Hroom).
        apply in_map_iff in Hroom as ([r room] & [= <- <-] & Hroom).
        exists fl, r, room. auto.
      * intros (fl & r & room & Hfl & Hroom & ->).
        eexists (f, _). split.
        -- apply in_map_iff. exists (f, fl). split; [reflexivity | exact Hfl].
        -- apply in_map_iff. eexists. split; [reflexivity|].
           cbn [rooms with_rooms]. unfold od_values. apply in_map_iff.
           eexists (r, _). split; [reflexivity|].
           apply in_map_iff. exists (r, room). split; [reflexivity | exact Hroom].
    + induction (all_floors st) as [|[f fl] fls IH]; [reflexivity|].
      cbn [map flat_map snd]. rewrite !length_app, IH. f_equal.
      cbn [rooms with_rooms]. unfold od_values. now rewrite !length_map.
  - intros f r. apply available_right_now.
  - unfold od_keys. rewrite List.map_map. apply map_ext. now intros [k fl].
  - assert (Hfloors :
      map (fun '(floor_number, floor_info) =>
             (floor_number,
              with_rooms
                (map (fun '(room_number, room_info) =>
                        (room_number,
                         with_available
                           (is_room_available (all_bookings st) floor_number
                                              room_number now now) room_info))
                     (rooms floor_info)) floor_info))
          (map (fun '(floor_number, floor_info) =>
                  (floor_number,
                   with_rooms
                     (map (fun '(room_number, room_info) =>
                             (room_number,
                              with_available
                                (is_room_available (all_bookings st) floor_number
                                                   room_number now now) room_info))
                          (rooms floor_info)) floor_info))
               (all_floors st))
      = map (fun '(floor_number, floor_info) =>
               (floor_number,
                with_rooms
                  (map (fun '(room_number, room_info) =>
                          (room_number,
                           with_available
                             (is_room_available (all_bookings st) floor_number
                                                room_number now now) room_info))
                       (rooms floor_info)) floor_info))
            (all_floors st)).
    { rewrite List.map_map. apply map_ext. intros [f fl].
      unfold with_rooms. cbn [rooms floor_number floor_capacity].
      do 2 f_equal. rewrite List.map_map. apply map_ext. now intros [r room]. }
    rewrite Hfloors. reflexivity.
  - intros f fl Hg.
    rewrite (od_get_map_values
               (fun floor_number floor_info =>
                  with_rooms
                    (map (fun '(room_number, room_info) =>
                            (room_number,
                             with_available
                               (is_room_available (all_bookings st) floor_number
                                                  room_number now now)
                               room_info))
                         (rooms floor_info)) floor_info)).
    rewrite Hg. cbn [option_map]. eexists. split; [reflexivity|].
    cbn [floor_number floor_capacity rooms with_rooms].
    split; [reflexivity|]. split; [reflexivity|]. split.
    + unfold od_keys. rewrite List.map_map. apply map_ext. now intros [r room].
    + intros r room Hr.
      rewrite (od_get_map_values
                 (fun room_number room_info =>
                    with_available
                      (is_room_available (all_bookings st) f room_number now now)
                      room_info)).
      now rewrite Hr.
  - intros f Hg.
    rewrite (od_get_map_values
               (fun floor_number floor_info =>
                  with_rooms
                    (map (fun '(room_number, room_info) =>
                            (room_number,
                             with_available
                               (is_room_available (all_bookings st) floor_number
                                                  room_number now now)
                               room_info))
                         (rooms floor_info)) floor_info)).
    now rewrite Hg.
Qed.

(** ** Searching rooms *)

(** X9. With both times parsed, [search_rooms] changes nothing and lists a
    room, with its floor and capacity, exactly when the room is stored on
    that floor, its capacity is at least the requested one (when one is
    requested) and it is available for the slot.  A time that does not
    parse ends the call in the [except] clause, the start time first. *)
Theorem search_rooms_lists_fitting_rooms floor_arg capacity_arg start_t end_t st :
  (exists l,
      search_rooms floor_arg capacity_arg (Ret start_t) (Ret end_t) st
      = (st, AvailableRooms l)
      /\ forall f r c,
           In (f, r, c) l
           <-> exists fl room,
                 In (f, fl) (all_floors st) /\ In (r, room) (rooms fl)
                 /\ capacity room = c
                 /\ (forall wanted, capacity_arg = Some wanted -> wanted <= c)
                 /\ is_room_available (all_bookings st) f r start_t end_t = true)
  /\ (forall ex end_outcome,
         search_rooms floor_arg capacity_arg (Raise ex) end_outcome st
         = (st, Caught ex))
  /\ (forall ex,
         search_rooms floor_arg capacity_arg (Ret start_t) (Raise ex) st
         = (st, Caught ex)).
Proof.
  split; [|split; reflexivity].
  unfold search_rooms. unfold_handler. eexists. split; [reflexivity|].
  intros f r c. rewrite in_flat_map. split.
  - intros ([f0 fl] & Hfl & Hin). apply in_flat_map in Hin as ([r0 room] & Hroom & Hin).
    rewrite Z.eqb_refl in Hin. cbn [orb] in Hin.
    destruct (match capacity_arg with Some c0 => c0 <=? capacity room | None => true end)
      eqn:Hcap; [|destruct Hin].
    destruct (is_room_available _ _ _ _ _) eqn:Hav; [|destruct Hin].
    destruct Hin as [[= <- <- <-]|[]].
    exists fl, room. repeat split; auto.
    intros wanted ->. now apply Z.leb_le.
  - intros (fl & room & Hfl & Hroom & <- & Hcap & Hav).
    exists (f, fl). split; [exact Hfl|]. apply in_flat_map.
    exists (r, room). split; [exact Hroom|].
    rewrite Z.eqb_refl. cbn [orb].
    replace (match capacity_arg with Some c0 => c0 <=? capacity room | None => true end)
      with true.
    + rewrite Hav. now left.
    + destruct capacity_arg as [wanted|]; [|reflexivity].
      symmetry. apply Z.leb_le. now apply Hcap.
Qed.

(** ** Listing bookings by organization *)

(** X10. [get_bookings] changes nothing, and for a name that its own
    lowering changes (any name with an upper-case letter) it returns the
    empty list, whatever is stored: a lowered stored organization never
    equals such a name. *)
Theorem get_bookings_upper_case_query org_name st :
  lower org_name <> org_name ->
  get_bookings org_name st = (st, BookingsData [] 0).
Proof.
  intros Hup. unfold get_bookings. unfold_handler.
  rewrite list_bookings_for_organization_filter.
  replace (List.filter (org_matches org_name) (od_values (all_bookings st)))
    with (@nil booking); [reflexivity|].
  symmetry. induction (od_values (all_bookings st)) as [|b bs IH]; [reflexivity|].
  simpl. rewrite <- IH. unfold org_matches.
  destruct (String.eqb_spec (lower (booking_organization b)) org_name) as [Heq|Hne];
    [|reflexivity].
  exfalso. apply Hup. rewrite <- Heq. apply lower_idem.
Qed.

Lemma get_bookings_upper_case_query_witness :
  get_bookings "aCme" lower_case_store = (lower_case_store, BookingsData [] 0).
Proof.
  exact (get_bookings_upper_case_query "aCme" lower_case_store
           ltac:(vm_compute; discriminate)).
Defined.

(** ** Users of an organization that has a ["users"] dictionary *)

Lemma add_user_on_dictionary st data org d :
  od_get (ur_organization data) (all_orgs st) = Some org ->
  org !! "users" = Some (VUsers d) ->
  add_user data st
  = match d with
    | [] =>
        (with_orgs
           (od_set (ur_organization data)
              (<["users" :=
                   VUsers [(lower (ur_email data),
                            mkuser (ur_name data) (ur_organization data)
                                   (lower (ur_emp_id data))
                                   (lower (ur_email data))
                                   (ur_role data) (ur_permissions data))]]> org)
              (all_orgs st)) st,
         UserAdded)
    | _ :: _ => (st, Caught TypeError)
    end.
Proof.
  intros Hg Hu. unfold add_user, od_mem. unfold_handler.
  cbv zeta. rewrite Hg. cbn [negb]. rewrite Hu.
  destruct d as [|kv d]; reflexivity.
Qed.



(** X12. On an organization whose ["users"] is a dictionary, [get_org]
    returns the organization with its users as a list and leaves that list
    in the store in place of the dictionary.  From then on, for that
    organization, a second [get_org] fails outside its [try] with
    [AttributeError], [get_users] ends in its [except] clause with it,
    [add_user] adds nobody and changes nothing, and [add_boooking] books
    nothing. *)
Theorem get_org_leaves_a_list org_name st org d :
  od_get (lower org_name) (all_orgs st) = Some org ->
  org !! "users" = Some (VUsers d) ->
  let org' := <["users" := VUserList (od_values d)]> org in
  let st' := with_orgs (od_set (lower org_name) org' (all_orgs st)) st in
  get_org org_name st = (st', OrganizationData org')
  /\ get_org org_name st' = (st', Uncaught AttributeError)
  /\ get_users (lower org_name) st' = (st', Caught AttributeError)
  /\ (forall data,
         ur_organization data = lower org_name ->
         fst (add_user data st') = st' /\ snd (add_user data st') <> UserAdded)
  /\ (forall now uuid data b,
         lower (br_organization data) = lower org_name ->
         snd (add_boooking now uuid data st') <> Booked b).
Proof.
  intros Hg Hu org' st'.
  assert (Hg' : od_get (lower org_name) (all_orgs st') = Some org')
    by (subst st'; cbn [all_orgs with_orgs]; apply od_get_set_eq).
  assert (Hu' : org' !! "users" = Some (VUserList (od_values d)))
    by apply lookup_insert_eq.
  split; [|split; [|split; [|split]]].
  - unfold get_org. unfold_handler. now rewrite Hg, Hu.
  - unfold get_org. unfold_handler. now rewrite Hg', Hu'.
  - unfold get_users. unfold_handler. now rewrite Hg', Hu'.
  - intros data Horg. unfold add_user, od_mem. unfold_handler. cbv zeta.
    rewrite Horg, Hg'. cbn [negb]. rewrite Hu'.
    cbn [is_email_unique is_emp_id_unique all_differ users_store].
    destruct (forallb _ _); cbn [negb fst snd]; [|split; [reflexivity|discriminate]].
    destruct (forallb _ _); cbn [negb fst snd]; split; try reflexivity; discriminate.
  - intros now uuid data b Horg. rewrite add_boooking_unfold. cbv zeta.
    rewrite Horg, Hg', Hu'. case_all; discriminate.
Qed.

Lemma get_org_leaves_a_list_witness :
  (exists org', get_org "Acme" busy_store
                = (with_orgs [("acme", org')] busy_store, OrganizationData org')
                /\ org' !! "users" = Some (VUserList [acme_user]))
  /\ snd (get_org "Acme" (fst (get_org "Acme" busy_store)))
     = Uncaught AttributeError.
Proof.
  pose proof (get_org_leaves_a_list "Acme" busy_store _ _ eq_refl eq_refl)
    as (H1 & H2 & _).
  cbv zeta in H1, H2. split.
  - eexists. split; [exact H1 | reflexivity].
  - rewrite H1. cbn [fst]. now rewrite H2.
Defined.

(** ** What a successful booking leaves behind *)

(** Everything [add_boooking] has established when it answers with a
    booking. *)
Lemma add_boooking_booked now uuid data st b :
  snd (add_boooking now uuid data st) = Booked b ->
  br_start_time data = Ret (start_time b)
  /\ br_end_time data = Ret (end_time b)
  /\ b = define_booking uuid (br_floor_number data) (br_room_number data)
                        (br_organization data) (br_booked_by data)
                        (start_time b) (end_time b)
  /\ off_the_hour (start_time b) (end_time b) = false
  /\ is_room_available (all_bookings st) (br_floor_number data)
                       (br_room_number data) (start_time b) (end_time b) = true
  /\ default 0 (reset_monthly_booking_hours now (organization_booking_hours st)
                !! lower (br_organization data))
     + booking_duration (start_time b) (end_time b) <= 30
  /\ fst (add_boooking now uuid data st)
     = with_bookings (od_set uuid b (all_bookings st))
         (after_quota now (lower (br_organization data))
                      (booking_duration (start_time b) (end_time b)) st).
Proof.
  rewrite add_boooking_unfold. cbv zeta.
  destruct (br_start_time data) as [start_t|ex]; [|discriminate].
  destruct (br_end_time data) as [end_t|ex]; [|discriminate].
  destruct (off_the_hour start_t end_t) eqn:Hoff; [discriminate|].
  destruct (od_get (br_floor_number data) (all_floors st)) as [fl|]; [|discriminate].
  destruct (od_mem (br_room_number data) (rooms fl)); [|discriminate].
  destruct (od_get _ (all_orgs st)) as [org|]; [|discriminate].
  destruct (org !! "users") as [[s|d|l]|]; try discriminate.
  destruct (bool_decide _); [|discriminate].
  unfold after_reset at 1. cbn [organization_booking_hours with_hours].
  destruct (30 <? _) eqn:Hlim; [discriminate|].
  destruct (is_room_available _ _ _ _ _) eqn:Hav; [|discriminate].
  cbn [fst snd]. intros [= <-]. cbn [start_time end_time define_booking].
  apply Z.ltb_ge in Hlim. repeat split; auto.
Qed.

Lemma clashes_sym b1 b2 :
  clashes (start_time b1) (end_time b1) b2
  = clashes (start_time b2) (end_time b2) b1.
Proof. unfold clashes. apply andb_comm. Qed.

Lemma is_room_available_no_clash bs f r start_t end_t k b :
  is_room_available bs f r start_t end_t = true ->
  od_get k bs = Some b ->
  booking_floor_number b = f -> booking_room_number b = r ->
  clashes start_t end_t b = false.
Proof.
  intros Hav Hg Hf Hr. unfold is_room_available in Hav.
  destruct (clashes start_t end_t b) eqn:Hc; [|reflexivity].
  assert (Hfalse : none_clashes start_t end_t
                     (List.filter (same_room f r) (od_values bs)) = false).
  { apply none_clashes_false. exists b. split; [|exact Hc].
    apply filter_In. split.
    - apply od_get_In in Hg. change b with (snd (k, b)). now apply in_map.
    - unfold same_room. now rewrite Hf, Hr, !Z.eqb_refl. }
  congruence.
Qed.

(** X13. If no two stored bookings of one room clash, that is still so
    after [add_boooking] has answered with a booking: the handler never
    double-books a room.  (It holds as well when the generated id is
    already in use, the new booking replacing the old one.) *)
Theorem add_boooking_never_double_books now uuid data st b :
  no_double_booking (all_bookings st) ->
  snd (add_boooking now uuid data st) = Booked b ->
  no_double_booking (all_bookings (fst (add_boooking now uuid data st)))
  /\ od_get uuid (all_bookings (fst (add_boooking now uuid data st))) = Some b.
Proof.
  intros Hinv Hb.
  destruct (add_boooking_booked _ _ _ _ _ Hb) as (_ & _ & Hdef & _ & Hav & _ & ->).
  cbn [all_bookings with_bookings]. split; [|apply od_get_set_eq].
  assert (Hfl : booking_floor_number b = br_floor_number data)
    by (rewrite Hdef; reflexivity).
  assert (Hrm : booking_room_number b = br_room_number data)
    by (rewrite Hdef; reflexivity).
  intros k1 b1 k2 b2 Hne H1 H2 Hf Hr.
  destruct (decide (uuid = k1)) as [<-|Hk1].
  - rewrite od_get_set_eq in H1. injection H1 as <-.
    rewrite od_get_set_ne in H2 by exact Hne.
    apply (is_room_available_no_clash _ _ _ _ _ _ _ Hav H2); congruence.
  - rewrite od_get_set_ne in H1 by exact Hk1.
    destruct (decide (uuid = k2)) as [<-|Hk2].
    + rewrite od_get_set_eq in H2. injection H2 as <-.
      rewrite clashes_sym.
      apply (is_room_available_no_clash _ _ _ _ _ _ _ Hav H1); congruence.
    + rewrite od_get_set_ne in H2 by exact Hk2.
      now apply (Hinv k1 b1 k2 b2).
Qed.

Lemma add_boooking_never_double_books_witness :
  exists b,
    snd (add_boooking scenario_now "b-2" ten_to_eleven busy_store) = Booked b
    /\ no_double_booking
         (all_bookings (fst (add_boooking scenario_now "b-2" ten_to_eleven
                                          busy_store)))
    /\ od_keys (all_bookings (fst (add_boooking scenario_now "b-2" ten_to_eleven
                                                busy_store)))
       = ["b-1"; "b-2"].
Proof.
  eexists. split; [reflexivity|]. split; [|reflexivity].
  refine (proj1 (add_boooking_never_double_books scenario_now "b-2" ten_to_eleven
                   busy_store _ _ eq_refl)).
  intros k1 b1 k2 b2 Hne H1 H2. cbn [all_bookings busy_store od_get] in H1, H2.
  destruct (decide (k1 = "b-1")) as [->|]; [|discriminate].
  destruct (decide (k2 = "b-1")) as [->|]; [|discriminate].
  contradiction.
Defined.

(** X14. [add_boooking] never compares the two times with each other.
    Once the other checks pass, a slot that ends at or before its start has
    a duration of zero or less, which is added to the organization's hours
    like any other, so the hours do not grow; the 30-hour check then passes
    whenever the hours accumulated so far did, and if the room is available
    the slot is booked as given. *)
Theorem add_boooking_accepts_reversed_slot now uuid data st start_t end_t fl org d :
  br_start_time data = Ret start_t ->
  br_end_time data = Ret end_t ->
  off_the_hour start_t end_t = false ->
  od_get (br_floor_number data) (all_floors st) = Some fl ->
  od_mem (br_room_number data) (rooms fl) = true ->
  od_get (lower (br_organization data)) (all_orgs st) = Some org ->
  org !! "users" = Some (VUsers d) ->
  booker_email (br_booked_by data) ∈ od_keys d ->
  to_micro end_t <= to_micro start_t ->
  let org_name := lower (br_organization data) in
  let accumulated :=
    default 0 (reset_monthly_booking_hours now (organization_booking_hours st)
               !! org_name) in
  let duration := booking_duration start_t end_t in
  accumulated <= 30 ->
  is_room_available (all_bookings st) (br_floor_number data)
                    (br_room_number data) start_t end_t = true ->
  duration <= 0
  /\ snd (add_boooking now uuid data st)
     = Booked (mkbooking uuid (br_floor_number data) (br_room_number data)
                         (br_organization data) (br_booked_by data)
                         start_t end_t)
  /\ organization_booking_hours (fst (add_boooking now uuid data st)) !! org_name
     = Some (accumulated + duration).
Proof.
  intros Hs He Hoff Hfl Hroom Horg Husers Hin Hrev org_name accumulated duration
         Hacc Hav.
  assert (Hdur : duration <= 0).
  { subst duration. unfold booking_duration, hours_of_delta, dt_diff.
    apply Z.div_le_upper_bound; unfold us_per_second; lia. }
  split; [exact Hdur|].
  subst org_name accumulated duration.
  rewrite add_boooking_unfold. cbv zeta.
  rewrite Hs, He, Hoff, Hfl, Hroom, Horg, Husers, (bool_decide_eq_true_2 _ Hin).
  unfold after_quota, after_reset. cbn [organization_booking_hours with_hours].
  assert (Hlim : (30 <? default 0 (reset_monthly_booking_hours now
                                     (organization_booking_hours st)
                                   !! lower (br_organization data))
                        + booking_duration start_t end_t) = false)
    by (apply Z.ltb_ge; lia).
  rewrite Hlim, Hav.
  cbn [fst snd organization_booking_hours with_hours with_bookings].
  split; [reflexivity | apply lookup_insert_eq].
Qed.

Lemma add_boooking_accepts_reversed_slot_witness :
  snd (add_boooking scenario_now "b-2" twelve_to_eleven busy_store)
  = Booked (mkbooking "b-2" 0 101 "acme" (mkbooker "User One" "u1@acme.com")
                      (mkdt 2024 3 1 12 0 0 0) (mkdt 2024 3 1 11 0 0 0))
  /\ organization_booking_hours
       (fst (add_boooking scenario_now "b-2" twelve_to_eleven busy_store))
     !! "acme" = Some 28.
Proof.
  exact (proj2 (add_boooking_accepts_reversed_slot scenario_now "b-2"
                  twelve_to_eleven busy_store
                  (mkdt 2024 3 1 12 0 0 0) (mkdt 2024 3 1 11 0 0 0)
                  (mkfloor 0 100 [(101, mkroom 101 20 0 None)])
                  {[ "org_name" := VStr "acme";
                     "org_email" := VStr "a@x.com";
                     "users" := VUsers [("u1@acme.com", acme_user)] ]}
                  [("u1@acme.com", acme_user)]
                  eq_refl eq_refl eq_refl eq_refl eq_refl eq_refl eq_refl
                  ltac:(constructor) ltac:(vm_compute; discriminate)
                  ltac:(vm_compute; discriminate) eq_refl)).
Defined.

(** X15. Booking and then cancelling in time puts the bookings back as
    they were (the id being a fresh one), but not the hours: the duration
    added by [add_boooking] stays on the organization's account, and
    [del_booking] touches nothing but the bookings. *)
Theorem cancel_does_not_refund now uuid data st b now' org_name :
  snd (add_boooking now uuid data st) = Booked b ->
  od_get uuid (all_bookings st) = None ->
  valid_datetime (start_time b) = true ->
  valid_datetime now' = true ->
  to_micro now' < to_micro (start_time b) - timedelta_minutes 15 ->
  let st1 := fst (add_boooking now uuid data st) in
  let st2 := fst (del_booking now' org_name uuid st1) in
  snd (del_booking now' org_name uuid st1) = BookingCancelled
  /\ all_bookings st2 = all_bookings st
  /\ all_floors st2 = all_floors st
  /\ all_orgs st2 = all_orgs st
  /\ organization_booking_hours st2 = organization_booking_hours st1
  /\ organization_booking_hours st2 !! lower (br_organization data)
     = Some (default 0 (reset_monthly_booking_hours now
                          (organization_booking_hours st)
                        !! lower (br_organization data))
             + booking_duration (start_time b) (end_time b)).
Proof.
  intros Hb Hfresh Hvalid Hnow Hearly st1 st2. subst st2 st1.
  destruct (add_boooking_booked _ _ _ _ _ Hb) as (_ & _ & _ & _ & _ & _ & ->).
  set (st1 := with_bookings _ _).
  assert (Hg : od_get uuid (all_bookings st1) = Some b)
    by (subst st1; cbn [all_bookings with_bookings]; apply od_get_set_eq).
  rewrite (del_booking_found _ _ _ _ _ Hg).
  pose proof (cancel_limit (start_time b) Hvalid) as Hl.
  pose proof (valid_datetime_to_micro now' Hnow) as Hday1.
  destruct (dt_sub_delta (start_time b) (timedelta_minutes 15)) as [limit|ex];
    [subst limit | lia].
  replace (to_micro now' <? _) with true by (symmetry; apply Z.ltb_lt; lia).
  subst st1. unfold after_quota, after_reset.
  cbn [fst snd all_bookings all_floors all_orgs organization_booking_hours
       with_bookings with_hours].
  split; [reflexivity|]. split; [now apply od_del_set_new|].
  split; [reflexivity|]. split; [reflexivity|]. split; [reflexivity|].
  apply lookup_insert_eq.
Qed.

Lemma cancel_does_not_refund_witness :
  all_bookings
    (fst (del_booking (mkdt 2024 3 1 9 0 0 0) "acme" "b-2"
            (fst (add_boooking scenario_now "b-2" ten_to_eleven busy_store))))
  = all_bookings busy_store
  /\ organization_booking_hours
       (fst (del_booking (mkdt 2024 3 1 9 0 0 0) "acme" "b-2"
               (fst (add_boooking scenario_now "b-2" ten_to_eleven busy_store))))
     !! "acme" = Some 30.
Proof.
  pose proof (cancel_does_not_refund scenario_now "b-2" ten_to_eleven busy_store
                _ (mkdt 2024 3 1 9 0 0 0) "acme" eq_refl eq_refl eq_refl eq_refl
                ltac:(vm_compute; reflexivity))
    as (_ & Hbs & _ & _ & _ & Hh).
  split; [exact Hbs | exact Hh].
Defined.

(** ** Availability as a function of the bookings and of the slot *)

Lemma is_room_available_cons id b bs f r start_t end_t :
  is_room_available ((id, b) :: bs) f r start_t end_t
  = negb (same_room f r b && clashes start_t end_t b)
    && is_room_available bs f r start_t end_t.
Proof.
  unfold is_room_available. cbn [od_values map snd List.filter].
  destruct (same_room f r b); [|reflexivity].
  cbn [none_clashes andb]. destruct (clashes start_t end_t b); reflexivity.
Qed.

(** X16. [is_room_available] looks at each booking on its own: with no
    booking every room is available; over two collections put together the
    answer is the conjunction of the two answers; a booking of another
    room or floor changes nothing; and removing a booking never turns an
    available room into an unavailable one. *)
Theorem is_room_available_by_booking f r start_t end_t :
  is_room_available [] f r start_t end_t = true
  /\ (forall bs1 bs2,
         is_room_available (bs1 ++ bs2) f r start_t end_t
         = is_room_available bs1 f r start_t end_t
           && is_room_available bs2 f r start_t end_t)
  /\ (forall id b bs,
         booking_floor_number b <> f \/ booking_room_number b <> r ->
         is_room_available ((id, b) :: bs) f r start_t end_t
         = is_room_available bs f r start_t end_t)
  /\ (forall id bs,
         is_room_available bs f r start_t end_t = true ->
         is_room_available (od_del id bs) f r start_t end_t = true).
Proof.
  split; [reflexivity|]. split; [|split].
  - intros bs1 bs2. unfold is_room_available, od_values.
    now rewrite List.map_app, List.filter_app, none_clashes_app.
  - intros id b bs Hother. rewrite is_room_available_cons.
    replace (same_room f r b) with false; [reflexivity|].
    symmetry. unfold same_room. apply andb_false_iff.
    destruct Hother as [Hf|Hr]; [left | right]; now apply Z.eqb_neq.
  - intros id bs. induction bs as [|[k b] bs IH]; [auto|].
    rewrite is_room_available_cons. intros Hav.
    apply andb_true_iff in Hav as [Hb Hbs]. cbn [od_del].
    destruct (decide (id = k)); [exact Hbs|].
    rewrite is_room_available_cons, Hb. now apply IH.
Qed.

(** X17. A room available for a slot is available for every slot inside
    it. *)
Theorem is_room_available_sub_slot bs f r start_t end_t start_t' end_t' :
  is_room_available bs f r start_t end_t = true ->
  to_micro start_t <= to_micro start_t' ->
  to_micro end_t' <= to_micro end_t ->
  is_room_available bs f r start_t' end_t' = true.
Proof.
  intros Hav Hs He. unfold is_room_available in *.
  destruct (none_clashes start_t' end_t' _) eqn:Hc; [reflexivity|].
  apply none_clashes_false in Hc as (b & Hin & Hb).
  assert (Hfalse : none_clashes start_t end_t
                     (List.filter (same_room f r) (od_values bs)) = false).
  { apply none_clashes_false. exists b. split; [exact Hin|].
    unfold clashes, dt_ltb in *. apply andb_true_iff in Hb as [H1 H2].
    apply andb_true_iff. split; apply Z.ltb_lt; lia. }
  congruence.
Qed.

Lemma is_room_available_sub_slot_witness :
  is_room_available (all_bookings busy_store) 0 101
                    (mkdt 2024 3 1 11 0 0 0) (mkdt 2024 3 1 12 0 0 0) = true.
Proof.
  exact (is_room_available_sub_slot (all_bookings busy_store) 0 101
           (mkdt 2024 3 1 10 0 0 0) (mkdt 2024 3 1 13 0 0 0)
           (mkdt 2024 3 1 11 0 0 0) (mkdt 2024 3 1 12 0 0 0)
           eq_refl ltac:(vm_compute; discriminate) ltac:(vm_compute; discriminate)).
Defined.

(** ** Floors, rooms and organizations only grow *)

(** X18. No handler ever removes a floor, a room or an organization: in
    every store the handlers can produce, whatever is called next, the
    floor numbers and the organization names that were stored are still
    stored, and each floor still has every room number it had. *)
Theorem floors_rooms_orgs_only_grow o st :
  reachable st ->
  let st' := fst (step o st) in
  incl (od_keys (all_floors st)) (od_keys (all_floors st'))
  /\ incl (od_keys (all_orgs st)) (od_keys (all_orgs st'))
  /\ (forall f fl r,
         od_get f (all_floors st) = Some fl -> In r (od_keys (rooms fl)) ->
         exists fl', od_get f (all_floors st') = Some fl'
                     /\ In r (od_keys (rooms fl'))).
Proof.
  intros Hreach st'. subst st'.
  pose proof (reachable_no_users_no_bookings st Hreach) as Hinv.
  pose proof (reachable_floors_numbered st Hreach) as Hnum.
  assert (Hsame : forall fls,
             fls = all_floors st ->
             forall f fl r,
               od_get f (all_floors st) = Some fl ->
               In r (od_keys (rooms fl)) ->
               exists fl', od_get f fls = Some fl' /\ In r (od_keys (rooms fl'))).
  { intros fls -> f fl r Hg Hr. exists fl. split; [exact Hg | exact Hr]. }
  split; [|split].
  - destruct o; try (rewrite step_floors_unchanged by exact I; apply incl_refl).
    + change (step AddFloor st) with (add_floor st). rewrite add_floor_floors.
      apply od_keys_set_incl.
    + change (step (AddRoom data) st) with (add_room data st).
      destruct (od_get (rr_floor_number data) (all_floors st)) as [fl|] eqn:Hg.
      * rewrite (add_room_cases _ _ _ Hg).
        destruct (od_mem _ _); [apply incl_refl|].
        destruct (_ <? _); [apply incl_refl | apply od_keys_set_incl].
      * rewrite (add_room_no_floor _ _ Hg). apply incl_refl.
    + change (step (GetRooms now) st) with (get_rooms now st).
      unfold get_rooms, list_rooms_with_availability. unfold_handler.
      cbn [fst all_floors with_floors]. unfold od_keys.
      rewrite List.map_map.
      erewrite map_ext; [apply incl_refl|]. now intros [k fl].
  - destruct o; try (rewrite step_orgs_unchanged by exact I; apply incl_refl).
    + change (step (AddOrg org_name org_email) st) with (add_org org_name org_email st).
      rewrite add_org_cases. destruct (od_mem _ _); [apply incl_refl|].
      apply od_keys_set_incl.
    + change (step (GetOrg org_name) st) with (get_org org_name st).
      destruct (get_org_without_users org_name st Hinv) as [ex ->]. apply incl_refl.
    + change (step (AddUser data) st) with (add_user data st).
      rewrite (add_user_without_users _ _ Hinv). destruct (od_mem _ _); apply incl_refl.
  - destruct o; try (apply Hsame; apply step_floors_unchanged; exact I).
    + change (step AddFloor st) with (add_floor st).
      rewrite (add_floor_numbered _ Hnum). cbn [fst all_floors with_floors].
      intros f fl r Hg Hr. exists fl. split; [|exact Hr].
      rewrite <- od_set_new.
      * rewrite od_get_set_ne; [exact Hg|]. intros <-.
        assert (Hin : In (Z.of_nat (List.length (all_floors st)))
                         (od_keys (all_floors st)))
          by (apply od_get_Some_keys; eauto).
        destruct Hnum as [Hkeys _]. rewrite Hkeys in Hin.
        apply in_numbers in Hin. lia.
      * apply od_get_None_keys. destruct Hnum as [-> _]. rewrite in_numbers. lia.
    + change (step (AddRoom data) st) with (add_room data st).
      destruct (od_get (rr_floor_number data) (all_floors st)) as [fl0|] eqn:Hg0.
      * rewrite (add_room_cases _ _ _ Hg0).
        destruct (od_mem _ _); [now apply Hsame|].
        destruct (_ <? _); [now apply Hsame|].
        cbn [fst all_floors with_floors]. intros f fl r Hg Hr.
        destruct (decide (rr_floor_number data = f)) as [<-|Hne].
        -- rewrite od_get_set_eq. eexists. split; [reflexivity|].
           cbn [rooms with_rooms]. apply od_keys_set_incl.
           congruence.
        -- rewrite od_get_set_ne by exact Hne. eauto.
      * rewrite (add_room_no_floor _ _ Hg0). now apply Hsame.
    + change (step (GetRooms now) st) with (get_rooms now st).
      unfold get_rooms, list_rooms_with_availability. unfold_handler.
      cbn [fst all_floors with_floors]. intros f fl r Hg Hr.
      rewrite (od_get_map_values
                 (fun floor_number floor_info =>
                    with_rooms
                      (map (fun '(room_number, room_info) =>
                              (room_number,
                               with_available
                                 (is_room_available (all_bookings st) floor_number
                                                    room_number now now)
                                 room_info))
                           (rooms floor_info)) floor_info)).
      rewrite Hg. eexists. split; [reflexivity|].
      cbn [rooms with_rooms]. unfold od_keys in *. rewrite List.map_map.
      erewrite map_ext; [exact Hr|]. now intros [k room].
Qed.

Lemma floors_rooms_orgs_only_grow_witness :
  exists fl',
    od_get 0 (all_floors (fst (step (AddRoom (mkroom_request 0 102 30))
                                    one_room_store))) = Some fl'
    /\ In 101 (od_keys (rooms fl')).
Proof.
  exact (proj2 (proj2 (floors_rooms_orgs_only_grow
                         (AddRoom (mkroom_request 0 102 30)) one_room_store
                         ltac:(apply reachable_run; constructor)))
               0 (mkfloor 0 100 [(101, mkroom 101 20 0 None)]) 101
               eq_refl ltac:(now left)).
Defined.

(** ** The stores are dictionaries *)

Lemma od_set_NoDup {K V} `{EqDecision K} (k : K) (v : V) (d : odict K V) :
  List.NoDup (od_keys d) -> List.NoDup (od_keys (od_set k v d)).
Proof.
  intros Hnd. destruct (od_get k d) as [v0|] eqn:Hg.
  - rewrite od_keys_set_old; [exact Hnd|]. apply od_mem_true. eauto.
  - rewrite (od_set_new _ _ _ Hg). unfold od_keys. rewrite List.map_app.
    apply List.NoDup_app; [exact Hnd | |].
    + constructor; [intros [] | constructor].
    + intros x Hx [<-|[]]. now apply od_get_None_keys in Hg.
Qed.

Lemma step_well_keyed o st :
  reachable st -> well_keyed st -> well_keyed (fst (step o st)).
Proof.
  intros Hreach (Hfl & Horg & Hrooms).
  pose proof (reachable_no_users_no_bookings st Hreach) as Hinv.
  split; [|split].
  - destruct o; try (rewrite step_floors_unchanged by exact I; exact Hfl).
    + change (step AddFloor st) with (add_floor st). rewrite add_floor_floors.
      now apply od_set_NoDup.
    + change (step (AddRoom data) st) with (add_room data st).
      destruct (od_get (rr_floor_number data) (all_floors st)) as [fl|] eqn:Hg.
      * rewrite (add_room_cases _ _ _ Hg).
        destruct (od_mem _ _); [exact Hfl|].
        destruct (_ <? _); [exact Hfl | now apply od_set_NoDup].
      * now rewrite (add_room_no_floor _ _ Hg).
    + change (step (GetRooms now) st) with (get_rooms now st).
      unfold get_rooms, list_rooms_with_availability. unfold_handler.
      cbn [fst all_floors with_floors]. unfold od_keys in *.
      rewrite List.map_map. erewrite map_ext; [exact Hfl|]. now intros [k fl].
  - destruct o; try (rewrite step_orgs_unchanged by exact I; exact Horg).
    + change (step (AddOrg org_name org_email) st)
        with (add_org org_name org_email st).
      rewrite add_org_cases. destruct (od_mem _ _); [exact Horg|].
      now apply od_set_NoDup.
    + change (step (GetOrg org_name) st) with (get_org org_name st).
      now destruct (get_org_without_users org_name st Hinv) as [ex ->].
    + change (step (AddUser data) st) with (add_user data st).
      rewrite (add_user_without_users _ _ Hinv). now destruct (od_mem _ _).
  - destruct o; try (rewrite step_floors_unchanged by exact I; exact Hrooms).
    + change (step AddFloor st) with (add_floor st). rewrite add_floor_floors.
      cbn [fst all_floors with_floors]. intros f fl Hin.
      apply od_set_In in Hin as [[-> ->]|Hin]; [|now apply Hrooms].
      split; [constructor | intros r room []].
    + change (step (AddRoom data) st) with (add_room data st).
      destruct (od_get (rr_floor_number data) (all_floors st)) as [fl0|] eqn:Hg.
      * rewrite (add_room_cases _ _ _ Hg).
        destruct (od_mem _ _); [exact Hrooms|].
        destruct (_ <? _); [exact Hrooms|].
        cbn [fst all_floors with_floors]. intros f fl Hin.
        apply od_set_In in Hin as [[-> ->]|Hin]; [|now apply Hrooms].
        destruct (Hrooms _ _ (od_get_In _ _ _ Hg)) as [Hnd Hfields].
        cbn [rooms with_rooms]. split; [now apply od_set_NoDup|].
        intros r room Hin. apply od_set_In in Hin as [[-> ->]|Hin].
        -- split; reflexivity.
        -- now apply Hfields.
      * now rewrite (add_room_no_floor _ _ Hg).
    + change (step (GetRooms now) st) with (get_rooms now st).
      unfold get_rooms, list_rooms_with_availability. unfold_handler.
      cbn [fst all_floors with_floors]. intros f fl' Hin.
      apply in_map_iff in Hin as ([f0 fl] & [= <- <-] & Hin).
      destruct (Hrooms _ _ Hin) as [Hnd Hfields].
      cbn [rooms with_rooms]. split.
      * unfold od_keys in *. rewrite List.map_map.
        erewrite map_ext; [exact Hnd|]. now intros [k room].
      * intros r room' Hin'.
        apply in_map_iff in Hin' as ([r0 room] & [= <- <-] & Hin').
        cbn [room_number room_floor_number with_available]. now apply Hfields.
Qed.

Lemma reachable_well_keyed st : reachable st -> well_keyed st.
Proof.
  induction 1 as [|o st Hr IH].
  - split; [constructor|]. split; [constructor|]. intros f fl [].
  - now apply step_well_keyed.
Qed.

(** X19. In every store the handlers can produce, no floor number, no
    organization name and, on each floor, no room number is stored twice,
    every stored pair is found again under its key, and each room carries
    the number it is stored under and the number of its floor. *)
Theorem stores_are_dictionaries st :
  reachable st ->
  List.NoDup (od_keys (all_floors st))
  /\ List.NoDup (od_keys (all_orgs st))
  /\ (forall f fl, In (f, fl) (all_floors st) <-> od_get f (all_floors st) = Some fl)
  /\ (forall k org, In (k, org) (all_orgs st) <-> od_get k (all_orgs st) = Some org)
  /\ (forall f fl,
         od_get f (all_floors st) = Some fl ->
         List.NoDup (od_keys (rooms fl))
         /\ forall r room,
              In (r, room) (rooms fl)
              <-> od_get r (rooms fl) = Some room
                  /\ room_number room = r /\ room_floor_number room = f).
Proof.
  intros Hreach.
  destruct (reachable_well_keyed st Hreach) as (Hfl & Horg & Hrooms).
  split; [exact Hfl|]. split; [exact Horg|]. split; [|split].
  - intros f fl. split; [now apply od_get_In_NoDup | apply od_get_In].
  - intros k org. split; [now apply od_get_In_NoDup | apply od_get_In].
  - intros f fl Hg. destruct (Hrooms _ _ (od_get_In _ _ _ Hg)) as [Hnd Hfields].
    split; [exact Hnd|]. intros r room. split.
    + intros Hin. split; [now apply od_get_In_NoDup | now apply Hfields].
    + intros [Hr _]. now apply od_get_In.
Qed.

Lemma stores_are_dictionaries_witness :
  List.NoDup (od_keys (all_floors two_floors_store))
  /\ forall r room,
       In (r, room) [(2, mkroom 2 10 1 None)]
       <-> od_get r [(2, mkroom 2 10 1 None)] = Some room
           /\ room_number room = r /\ room_floor_number room = 1.
Proof.
  pose proof (stores_are_dictionaries two_floors_store
                ltac:(apply reachable_run; constructor))
    as (Hnd & _ & _ & _ & Hrooms).
  split; [exact Hnd|].
  exact (proj2 (Hrooms 1 (mkfloor 1 100 [(2, mkroom 2 10 1 None)]) eq_refl)).
Defined.

(** ** The email of the booker *)

(** X20. [add_user] stores a user under the lowered email; [add_boooking]
    looks the booker's email up as it is given.  So, for an email and an
    organization name made of ASCII characters, after a user has been
    added to an organization with an empty users dictionary, a request
    that passes the whole-hour, floor and room checks gets past the user
    check exactly when its booker email is that lowered email: the email
    as it was given to [add_user], if it has an upper-case letter, is
    answered "no such user". *)
Theorem booker_email_is_matched_as_given data req now uuid st org fl start_t end_t :
  is_ascii (ur_email data) = true ->
  is_ascii (br_organization req) = true ->
  od_get (ur_organization data) (all_orgs st) = Some org ->
  org !! "users" = Some (VUsers []) ->
  lower (br_organization req) = ur_organization data ->
  br_start_time req = Ret start_t ->
  br_end_time req = Ret end_t ->
  off_the_hour start_t end_t = false ->
  od_get (br_floor_number req) (all_floors st) = Some fl ->
  od_mem (br_room_number req) (rooms fl) = true ->
  let st1 := fst (add_user data st) in
  let r := snd (add_boooking now uuid req st1) in
  snd (add_user data st) = UserAdded
  /\ (r = NoSuchUser <-> booker_email (br_booked_by req) <> lower (ur_email data))
  /\ (booker_email (br_booked_by req) = ur_email data ->
      lower (ur_email data) <> ur_email data -> r = NoSuchUser).
Proof.
  intros Hemail Hname Hg Hu Horg Hs He Hoff Hfl Hroom st1 r. subst r st1.
  rewrite (add_user_on_dictionary _ _ _ _ Hg Hu). cbn [fst snd].
  split; [reflexivity|].
  rewrite add_boooking_unfold. cbv zeta.
  rewrite Hs, He, Hoff. cbn [all_floors all_orgs all_bookings with_orgs].
  rewrite Hfl, Hroom, Horg, od_get_set_eq, lookup_insert_eq.
  cbn [od_keys map fst].
  destruct (decide (booker_email (br_booked_by req) = lower (ur_email data)))
    as [Heq|Hne].
  - rewrite bool_decide_eq_true_2 by (rewrite Heq; constructor). split.
    + split; [|contradiction]. case_all; discriminate.
    + intros Heq' Hup. exfalso. congruence.
  - rewrite bool_decide_eq_false_2.
    + cbn [snd]. split; [tauto | reflexivity].
    + intros Hin. apply list_elem_of_In in Hin. destruct Hin as [Hin|[]].
      congruence.
Qed.

Lemma booker_email_is_matched_as_given_witness :
  snd (add_user user_capitals ready_store) = UserAdded
  /\ snd (add_boooking scenario_now "b-1" nine_to_ten_capitals
            (fst (add_user user_capitals ready_store)))
     = NoSuchUser.
Proof.
  pose proof (booker_email_is_matched_as_given user_capitals nine_to_ten_capitals
                scenario_now "b-1" ready_store _ _ _ _
                eq_refl eq_refl
                eq_refl eq_refl eq_refl eq_refl eq_refl eq_refl eq_refl eq_refl)
    as (Hadd & _ & Hno).
  split; [exact Hadd|].
  apply Hno; [reflexivity | vm_compute; discriminate].
Defined.

(** ** What each handler leaves alone *)

(** X21. Which parts of the store a handler can change.  The queries
    [get_floors], [get_floor], [search_rooms], [get_orgs], [get_users],
    [get_user], [get_bookings] and [get_booking] change nothing;
    [add_floor], [add_room] and [get_rooms] change the floors only;
    [add_org], [add_user] and [get_org] the organizations only;
    [add_boooking] the bookings and the hours only; [del_booking] the
    bookings only. *)
Theorem handlers_keep_to_their_part o st :
  let st' := fst (step o st) in
  match o with
  | GetFloors | GetFloor _ | SearchRooms _ _ _ _ | GetOrgs | GetUsers _
  | GetUser _ _ | GetBookings _ | GetBooking _ _ => st' = st
  | AddFloor | AddRoom _ | GetRooms _ =>
      all_orgs st' = all_orgs st /\ all_bookings st' = all_bookings st
      /\ organization_booking_hours st' = organization_booking_hours st
  | AddOrg _ _ | AddUser _ | GetOrg _ =>
      all_floors st' = all_floors st /\ all_bookings st' = all_bookings st
      /\ organization_booking_hours st' = organization_booking_hours st
  | AddBooking _ _ _ =>
      all_floors st' = all_floors st /\ all_orgs st' = all_orgs st
  | DelBooking _ _ _ =>
      all_floors st' = all_floors st /\ all_orgs st' = all_orgs st
      /\ organization_booking_hours st' = organization_booking_hours st
  end.
Proof.
  destruct o; cbv zeta; simpl;
    [ unfold add_floor | unfold get_floors | unfold get_floor | unfold add_room
    | unfold get_rooms | unfold search_rooms | unfold add_org | unfold get_orgs
    | unfold get_org | unfold add_user | unfold get_users | unfold get_user
    | unfold add_boooking | unfold get_bookings | unfold get_booking
    | unfold del_booking ];
    unfold_handler; case_all; auto.
Qed.
